(** * MemGM: the MemGPT-style game-master agent and its messages formatter

    A shallow embedding of [src/memgpt_agent.py] (the constructor's settings
    validation, the [activate_message_mode] tool, the heartbeat loop of
    [MemGptAgent.get_response]) and of [src/mini_memgpt.py] (the
    [MessagesFormatter] class), followed by the properties of the
    specification that concern them.

    Python strings are modelled as [string] (sequences of ASCII characters),
    Python exceptions as values of [PyExn], objects that are mutated in place
    as cells of an explicit heap addressed by natural numbers. *)

From Stdlib Require Import String Ascii List Bool Arith Lia.
From stdpp Require Import base option list strings.
Import ListNotations.
Local Open Scope string_scope.
Local Open Scope list_scope.

(** ** Python exceptions raised by the embedded code *)

Inductive PyExn : Type :=
| Exception (msg : string)
| TypeError (msg : string)
| AttributeError (msg : string)
| IndexError (msg : string)
| FileNotFoundError (path : string)
| InvalidReference (addr : nat).

(** * Part I: [MemGptAgent.__init__], validation of the settings pairing *)

(** The four classes accepted for the [llama_llm] argument. *)
Inductive LlmProvider : Type :=
| Llama
| LlamaLLMSettings
| LlamaCppEndpointSettings
| OpenAIEndpointSettings.

(** The three classes accepted for [llama_generation_settings]; the Python
    default [None] is [None] of [option GenerationSettings]. *)
Inductive GenerationSettings : Type :=
| LlamaLLMGenerationSettings
| LlamaCppGenerationSettings
| OpenAIGenerationSettings.

Definition is_Llama (p : LlmProvider) : bool :=
  match p with Llama => true | _ => false end.
Definition is_LlamaLLMSettings (p : LlmProvider) : bool :=
  match p with LlamaLLMSettings => true | _ => false end.
Definition is_LlamaCppEndpointSettings (p : LlmProvider) : bool :=
  match p with LlamaCppEndpointSettings => true | _ => false end.
Definition is_OpenAIEndpointSettings (p : LlmProvider) : bool :=
  match p with OpenAIEndpointSettings => true | _ => false end.
Definition is_LlamaLLMGenerationSettings (g : GenerationSettings) : bool :=
  match g with LlamaLLMGenerationSettings => true | _ => false end.
Definition is_LlamaCppGenerationSettings (g : GenerationSettings) : bool :=
  match g with LlamaCppGenerationSettings => true | _ => false end.
Definition is_OpenAIGenerationSettings (g : GenerationSettings) : bool :=
  match g with OpenAIGenerationSettings => true | _ => false end.

(** Lines 127-133: the default generation settings when none are given. *)
Definition default_generation_settings (llama_llm : LlmProvider)
  (llama_generation_settings : option GenerationSettings) : GenerationSettings :=
  match llama_generation_settings with
  | Some g => g
  | None =>
      if is_Llama llama_llm || is_LlamaLLMSettings llama_llm
      then LlamaLLMGenerationSettings
      else if is_OpenAIEndpointSettings llama_llm
      then OpenAIGenerationSettings
      else LlamaCppGenerationSettings
  end.

Definition wrong_settings_llama_cpp_server : string :=
  "Wrong generation settings for llama.cpp server endpoint, use LlamaCppServerGenerationSettings under llama_cpp_agent.providers.llama_cpp_server_provider!".
Definition wrong_settings_llama_cpp_python : string :=
  "Wrong generation settings for llama-cpp-python, use LlamaLLMGenerationSettings under llama_cpp_agent.llm_settings!".
Definition wrong_settings_openai : string :=
  "Wrong generation settings for OpenAI endpoint, use CompletionRequestSettings under llama_cpp_agent.providers.openai_endpoint_provider!".

(** Lines 127-149 of [MemGptAgent.__init__]: the three checks, in the order
    of the source.  The second condition is written
    [isinstance(llama_llm, Llama) or isinstance(llama_llm, LlamaLLMSettings)
     and isinstance(llama_generation_settings, LlamaCppGenerationSettings)];
    Python's [and] binds tighter than [or], which is how it is grouped here.
    On success the settings stored in [self.llama_generation_settings] are
    returned. *)
Definition validate_settings (llama_llm : LlmProvider)
  (llama_generation_settings : option GenerationSettings)
  : PyExn + GenerationSettings :=
  let g := default_generation_settings llama_llm llama_generation_settings in
  if is_LlamaLLMGenerationSettings g && is_LlamaCppEndpointSettings llama_llm
  then inl (Exception wrong_settings_llama_cpp_server)
  else if is_Llama llama_llm
          || (is_LlamaLLMSettings llama_llm && is_LlamaCppGenerationSettings g)
  then inl (Exception wrong_settings_llama_cpp_python)
  else if is_OpenAIEndpointSettings llama_llm && negb (is_OpenAIGenerationSettings g)
  then inl (Exception wrong_settings_openai)
  else inr g.

(** The pairings the three error messages of the constructor describe as
    right: llama-cpp-python ([Llama] or [LlamaLLMSettings]) with
    [LlamaLLMGenerationSettings], the llama.cpp server endpoint with
    [LlamaCppGenerationSettings], the OpenAI endpoint with
    [OpenAIGenerationSettings]; settings left unset take the default. *)
Definition compatible (llama_llm : LlmProvider)
  (llama_generation_settings : option GenerationSettings) : bool :=
  match llama_llm, default_generation_settings llama_llm llama_generation_settings with
  | Llama, LlamaLLMGenerationSettings => true
  | LlamaLLMSettings, LlamaLLMGenerationSettings => true
  | LlamaCppEndpointSettings, LlamaCppGenerationSettings => true
  | OpenAIEndpointSettings, OpenAIGenerationSettings => true
  | _, _ => false
  end.

(** * Part II: [MessagesFormatter] of [src/mini_memgpt.py] *)

(** ** JSON values and message dictionaries *)

#[local] Unset Elimination Schemes.
Inductive JValue : Type :=
| JNull
| JBool (b : bool)
| JNum (n : nat)
| JStr (s : string)
| JList (items : list JValue)
| JDict (entries : list (string * JValue)).
#[local] Set Elimination Schemes.

(** The value under the key ["content"] of a message: a string, or (for
    function results) a list of JSON-serialisable values. *)
Inductive Content : Type :=
| CStr (s : string)
| CList (items : list JValue).

(** A message dictionary [{"role": ..., "content": ...}]. *)
Record Message : Type := mkMessage {
  role : string;
  content : Content
}.

(** ** [str.strip], [str.startswith], [str.join] *)

(** [str.isspace] on ASCII characters: TAB, LF, VT, FF, CR, the separators
    FS, GS, RS, US and the space. *)
Definition isspace (c : ascii) : bool :=
  let n := nat_of_ascii c in
  (Nat.leb 9 n && Nat.leb n 13) || (Nat.leb 28 n && Nat.leb n 32).

Fixpoint lstrip_chars (l : list ascii) : list ascii :=
  match l with
  | [] => []
  | c :: r => if isspace c then lstrip_chars r else l
  end.

Fixpoint rstrip_chars (l : list ascii) : list ascii :=
  match l with
  | [] => []
  | c :: r =>
      match rstrip_chars r with
      | [] => if isspace c then [] else [c]
      | r' => c :: r'
      end
  end.

(** [s.strip()] *)
Definition strip (s : string) : string :=
  string_of_list_ascii (rstrip_chars (lstrip_chars (list_ascii_of_string s))).

(** [s.startswith(p)] *)
Definition startswith (p s : string) : bool := String.prefix p s.

(** [sep.join(l)] *)
Fixpoint join (sep : string) (l : list string) : string :=
  match l with
  | [] => ""
  | [x] => x
  | x :: r => x +:+ sep +:+ join sep r
  end.

Definition newline : string := String (ascii_of_nat 10) EmptyString.

(** ** The formatter object *)

(** The attributes [__init__] sets (lines 46-63), in the order of their
    first assignment, which is the order of [self.__dict__]. *)
Record MessagesFormatter : Type := mkFormatter {
  PRE_PROMPT : string;
  SYS_PROMPT_START : string;
  SYS_PROMPT_END : string;
  USER_PROMPT_START : string;
  USER_PROMPT_END : string;
  ASSISTANT_PROMPT_START : string;
  ASSISTANT_PROMPT_END : string;
  INCLUDE_SYS_PROMPT_IN_FIRST_USER_MESSAGE : bool;
  DEFAULT_STOP_SEQUENCES : list string;
  FUNCTION_CALL_PROMPT_START : string;
  FUNCTION_CALL_PROMPT_END : string;
  FUNCTION_PROMPT_START : string;
  FUNCTION_PROMPT_END : string;
  USE_USER_ROLE_FUNCTION_CALL_RESULT : bool;
  STRIP_PROMPT : bool;
  USE_FUNCTION_CALL_END : bool
}.

(** ** [MessagesFormatter.format_messages] (lines 65-122)

    The elements of [messages] are references to dictionaries; the loop
    assigns to [message["content"]], which changes the dictionary every
    holder of the reference sees.  The dictionaries live in a heap (a list
    indexed by address) and [messages] is the list of their addresses, so an
    object listed twice is one cell. *)

Abbreviation Heap := (list Message).

(** The local variables of the loop, together with the heap. *)
Record LoopState : Type := mkLoop {
  formatted_messages : string;
  last_role : string;
  no_user_prompt_start : bool;
  heap : Heap
}.

(** [str + message["content"] + str]: a [TypeError] when the content is a
    list. *)
Definition concat_content (pre : string) (c : Content) (post : string) : PyExn + string :=
  match c with
  | CStr s => inr (pre +:+ s +:+ post)
  | CList _ => inl (TypeError "can only concatenate str (not list) to str")
  end.

(** [json.dumps(m, indent=2)] is the library's; it is a parameter of the
    formatter's functions. *)
Definition JsonDumps : Type := JValue -> string.

(** One iteration of the [for message in messages] loop (lines 79-108) on
    the dictionary at address [addr]. *)
Definition format_step (json_dumps : JsonDumps) (self : MessagesFormatter)
  (st : LoopState) (addr : nat) : PyExn + LoopState :=
  match heap st !! addr with
  | None => inl (InvalidReference addr)
  | Some message =>
      if String.eqb (role message) "system" then
        match concat_content (SYS_PROMPT_START self) (content message) (SYS_PROMPT_END self) with
        | inl e => inl e
        | inr piece =>
            let fm := formatted_messages st +:+ piece in
            if INCLUDE_SYS_PROMPT_IN_FIRST_USER_MESSAGE self
            then inr (mkLoop (USER_PROMPT_START self +:+ fm) "system" true (heap st))
            else inr (mkLoop fm "system" (no_user_prompt_start st) (heap st))
        end
      else if String.eqb (role message) "user" then
        if no_user_prompt_start st then
          match concat_content "" (content message) (USER_PROMPT_END self) with
          | inl e => inl e
          | inr piece => inr (mkLoop (formatted_messages st +:+ piece) "user" false (heap st))
          end
        else
          match concat_content (USER_PROMPT_START self) (content message) (USER_PROMPT_END self) with
          | inl e => inl e
          | inr piece =>
              inr (mkLoop (formatted_messages st +:+ piece) "user" (no_user_prompt_start st) (heap st))
          end
      else if String.eqb (role message) "assistant" then
        match content message with
        | CList _ => inl (AttributeError "'list' object has no attribute 'strip'")
        | CStr s =>
            let s' := if STRIP_PROMPT self then strip s else s in
            let heap' :=
              if STRIP_PROMPT self
              then <[addr := mkMessage (role message) (CStr s')]> (heap st)
              else heap st in
            let piece :=
              if startswith "{" (strip s')
              then FUNCTION_CALL_PROMPT_START self +:+ s' +:+ FUNCTION_CALL_PROMPT_END self
              else ASSISTANT_PROMPT_START self +:+ s' +:+ ASSISTANT_PROMPT_END self in
            inr (mkLoop (formatted_messages st +:+ piece) "assistant" (no_user_prompt_start st) heap')
        end
      else if String.eqb (role message) "function" then
        let c' :=
          match content message with
          | CList items => CStr (join newline (map json_dumps items))
          | CStr s => CStr s
          end in
        let heap' :=
          match content message with
          | CList _ => <[addr := mkMessage (role message) c']> (heap st)
          | CStr _ => heap st
          end in
        if USE_USER_ROLE_FUNCTION_CALL_RESULT self then
          match concat_content (USER_PROMPT_START self) c' (USER_PROMPT_END self) with
          | inl e => inl e
          | inr piece =>
              inr (mkLoop (formatted_messages st +:+ piece) "user" (no_user_prompt_start st) heap')
          end
        else
          match concat_content (FUNCTION_PROMPT_START self) c' (FUNCTION_PROMPT_END self) with
          | inl e => inl e
          | inr piece =>
              inr (mkLoop (formatted_messages st +:+ piece) "function" (no_user_prompt_start st) heap')
          end
      else inr st
  end.

(** The [for] loop: an exception stops it and leaves the heap as the
    iterations before it made it. *)
Fixpoint format_loop (json_dumps : JsonDumps) (self : MessagesFormatter)
  (messages : list nat) (st : LoopState) : PyExn * Heap + LoopState :=
  match messages with
  | [] => inr st
  | addr :: rest =>
      match format_step json_dumps self st addr with
      | inl e => inl (e, heap st)
      | inr st' => format_loop json_dumps self rest st'
      end
  end.

(** Lines 109-122: the prompt that opens the next turn and its role. *)
Definition format_return (self : MessagesFormatter) (st : LoopState) : string * string :=
  let fm := formatted_messages st in
  let lr := last_role st in
  if USE_FUNCTION_CALL_END self then
    if STRIP_PROMPT self
    then (fm +:+ strip (FUNCTION_CALL_PROMPT_START self), "assistant")
    else (fm +:+ FUNCTION_CALL_PROMPT_START self, "assistant")
  else if String.eqb lr "system" || String.eqb lr "user" || String.eqb lr "function" then
    if STRIP_PROMPT self
    then (fm +:+ strip (ASSISTANT_PROMPT_START self), "assistant")
    else (fm +:+ ASSISTANT_PROMPT_START self, "assistant")
  else
    if STRIP_PROMPT self
    then (fm +:+ strip (USER_PROMPT_START self), "user")
    else (fm +:+ USER_PROMPT_START self, "user").

(** [self.format_messages(messages)] run on heap [h]: the heap it leaves,
    and the exception it raised or the pair it returned. *)
Definition format_messages (json_dumps : JsonDumps) (self : MessagesFormatter)
  (h : Heap) (messages : list nat) : Heap * (PyExn + string * string) :=
  match format_loop json_dumps self messages (mkLoop (PRE_PROMPT self) "assistant" false h) with
  | inl (e, h') => (h', inl e)
  | inr st => (heap st, inr (format_return self st))
  end.

(** ** [as_dict], [save], [load_from_file] (lines 124-169) *)

(** [self.__dict__]: every attribute [__init__] assigned, the last line of
    [__init__] ([self.USE_FUNCTION_CALL_END = False]) included. *)
Definition as_dict (self : MessagesFormatter) : list (string * JValue) :=
  [ ("PRE_PROMPT", JStr (PRE_PROMPT self));
    ("SYS_PROMPT_START", JStr (SYS_PROMPT_START self));
    ("SYS_PROMPT_END", JStr (SYS_PROMPT_END self));
    ("USER_PROMPT_START", JStr (USER_PROMPT_START self));
    ("USER_PROMPT_END", JStr (USER_PROMPT_END self));
    ("ASSISTANT_PROMPT_START", JStr (ASSISTANT_PROMPT_START self));
    ("ASSISTANT_PROMPT_END", JStr (ASSISTANT_PROMPT_END self));
    ("INCLUDE_SYS_PROMPT_IN_FIRST_USER_MESSAGE",
      JBool (INCLUDE_SYS_PROMPT_IN_FIRST_USER_MESSAGE self));
    ("DEFAULT_STOP_SEQUENCES", JList (map JStr (DEFAULT_STOP_SEQUENCES self)));
    ("FUNCTION_CALL_PROMPT_START", JStr (FUNCTION_CALL_PROMPT_START self));
    ("FUNCTION_CALL_PROMPT_END", JStr (FUNCTION_CALL_PROMPT_END self));
    ("FUNCTION_PROMPT_START", JStr (FUNCTION_PROMPT_START self));
    ("FUNCTION_PROMPT_END", JStr (FUNCTION_PROMPT_END self));
    ("USE_USER_ROLE_FUNCTION_CALL_RESULT", JBool (USE_USER_ROLE_FUNCTION_CALL_RESULT self));
    ("STRIP_PROMPT", JBool (STRIP_PROMPT self));
    ("USE_FUNCTION_CALL_END", JBool (USE_FUNCTION_CALL_END self)) ].

(** The parameters of [__init__] (lines 16-27): eleven without a default,
    then four with one. *)
Definition required_parameters : list string :=
  [ "PRE_PROMPT"; "SYS_PROMPT_START"; "SYS_PROMPT_END"; "USER_PROMPT_START";
    "USER_PROMPT_END"; "ASSISTANT_PROMPT_START"; "ASSISTANT_PROMPT_END";
    "FUNCTION_CALL_PROMPT_START"; "FUNCTION_CALL_PROMPT_END";
    "INCLUDE_SYS_PROMPT_IN_FIRST_USER_MESSAGE"; "DEFAULT_STOP_SEQUENCES" ].
Definition optional_parameters : list string :=
  [ "USE_USER_ROLE_FUNCTION_CALL_RESULT"; "FUNCTION_PROMPT_START";
    "FUNCTION_PROMPT_END"; "STRIP_PROMPT" ].
Definition init_parameters : list string := required_parameters ++ optional_parameters.

Definition mem_string (k : string) (l : list string) : bool :=
  existsb (String.eqb k) l.

Fixpoint dict_get (k : string) (d : list (string * JValue)) : option JValue :=
  match d with
  | [] => None
  | (k', v) :: r => if String.eqb k k' then Some v else dict_get k r
  end.

(** The first keyword of the call that names no parameter. *)
Fixpoint unexpected_keyword (kwargs : list (string * JValue)) : option string :=
  match kwargs with
  | [] => None
  | (k, _) :: r => if mem_string k init_parameters then unexpected_keyword r else Some k
  end.

(** The first parameter without a default that the call does not bind. *)
Fixpoint missing_argument (required : list string) (kwargs : list (string * JValue))
  : option string :=
  match required with
  | [] => None
  | k :: r =>
      match dict_get k kwargs with
      | Some _ => missing_argument r kwargs
      | None => Some k
      end
  end.

Definition as_str (v : JValue) : option string :=
  match v with JStr s => Some s | _ => None end.
Definition as_bool (v : JValue) : option bool :=
  match v with JBool b => Some b | _ => None end.
Fixpoint as_str_list_items (l : list JValue) : option (list string) :=
  match l with
  | [] => Some []
  | v :: r =>
      match as_str v, as_str_list_items r with
      | Some s, Some r' => Some (s :: r')
      | _, _ => None
      end
  end.
Definition as_str_list (v : JValue) : option (list string) :=
  match v with JList l => as_str_list_items l | _ => None end.

Definition arg_str (k : string) (kwargs : list (string * JValue)) (default : option string)
  : option string :=
  match dict_get k kwargs with Some v => as_str v | None => default end.
Definition arg_bool (k : string) (kwargs : list (string * JValue)) (default : option bool)
  : option bool :=
  match dict_get k kwargs with Some v => as_bool v | None => default end.
Definition arg_str_list (k : string) (kwargs : list (string * JValue))
  : option (list string) :=
  match dict_get k kwargs with Some v => as_str_list v | None => None end.

(** The body of [__init__] once the arguments are bound.  The record is
    typed, Python's attributes are not: an argument of another JSON type
    than the annotation gives [None] here (Python would store it and fail
    later, in [format_messages]). *)
Definition init_body (kw : list (string * JValue)) : option MessagesFormatter :=
  pre ← arg_str "PRE_PROMPT" kw None;
  sys_s ← arg_str "SYS_PROMPT_START" kw None;
  sys_e ← arg_str "SYS_PROMPT_END" kw None;
  usr_s ← arg_str "USER_PROMPT_START" kw None;
  usr_e ← arg_str "USER_PROMPT_END" kw None;
  ast_s ← arg_str "ASSISTANT_PROMPT_START" kw None;
  ast_e ← arg_str "ASSISTANT_PROMPT_END" kw None;
  fc_s ← arg_str "FUNCTION_CALL_PROMPT_START" kw None;
  fc_e ← arg_str "FUNCTION_CALL_PROMPT_END" kw None;
  incl ← arg_bool "INCLUDE_SYS_PROMPT_IN_FIRST_USER_MESSAGE" kw None;
  stops ← arg_str_list "DEFAULT_STOP_SEQUENCES" kw;
  use_user ← arg_bool "USE_USER_ROLE_FUNCTION_CALL_RESULT" kw (Some true);
  f_s ← arg_str "FUNCTION_PROMPT_START" kw (Some "");
  f_e ← arg_str "FUNCTION_PROMPT_END" kw (Some "");
  strip_p ← arg_bool "STRIP_PROMPT" kw (Some true);
  Some (mkFormatter pre sys_s sys_e usr_s usr_e ast_s ast_e incl stops
          fc_s fc_e f_s f_e use_user strip_p false).

(** The call of [MessagesFormatter] with a dictionary unpacked into keyword
    arguments (lines 147 and 160): Python binds the keywords to the
    parameters of [__init__] first; a keyword that names no
    parameter, or a parameter without default left unbound, is a
    [TypeError] raised before the body runs. *)
Definition init_kwargs (kwargs : list (string * JValue)) : PyExn + MessagesFormatter :=
  match unexpected_keyword kwargs with
  | Some k =>
      inl (TypeError ("__init__() got an unexpected keyword argument '" +:+ k +:+ "'"))
  | None =>
      match missing_argument required_parameters kwargs with
      | Some k => inl (TypeError ("__init__() missing required argument '" +:+ k +:+ "'"))
      | None =>
          match init_body kwargs with
          | Some f => inr f
          | None => inl (TypeError "argument of another type than its annotation")
          end
      end
  end.

(** [load_from_dict] (line 160) *)
Definition load_from_dict (loaded_messages_formatter : list (string * JValue))
  : PyExn + MessagesFormatter :=
  init_kwargs loaded_messages_formatter.

(** The files: the JSON document stored under each path.  [json.dump]
    followed by [json.load] gives back the value for strings, booleans and
    lists of strings, which is all [as_dict] holds, so a file is modelled by
    the document written to it. *)
Definition FileSystem : Type := string -> option JValue.

Definition write_file (fs : FileSystem) (file_path : string) (doc : JValue) : FileSystem :=
  fun p => if String.eqb p file_path then Some doc else fs p.

(** [self.save(file_path)] (lines 131-132) *)
Definition save (self : MessagesFormatter) (file_path : string) (fs : FileSystem)
  : FileSystem :=
  write_file fs file_path (JDict (as_dict self)).

(** [MessagesFormatter.load_from_file(file_path)] (lines 145-147) *)
Definition load_from_file (file_path : string) (fs : FileSystem)
  : PyExn + MessagesFormatter :=
  match fs file_path with
  | None => inl (FileNotFoundError file_path)
  | Some (JDict loaded_messages_formatter) => init_kwargs loaded_messages_formatter
  | Some _ => inl (TypeError "argument after ** must be a mapping")
  end.

(** The formatter [custom_chat_ml_formatter] of lines 174-190. *)
Definition custom_chat_ml_formatter : MessagesFormatter :=
  let nl := newline in
  {| PRE_PROMPT := "";
     SYS_PROMPT_START := "### Instructions:" +:+ nl;
     SYS_PROMPT_END := nl;
     USER_PROMPT_START := "### Elysia Thunderscribe:" +:+ nl;
     USER_PROMPT_END := nl;
     ASSISTANT_PROMPT_START := "### Game Master:" +:+ nl;
     ASSISTANT_PROMPT_END := nl;
     INCLUDE_SYS_PROMPT_IN_FIRST_USER_MESSAGE := false;
     DEFAULT_STOP_SEQUENCES :=
       [ "### Player"; "### Function Call:"; "<Player Response>";
         "<Waiting for Player Input>"; "### Way of Thought"; "### Game Master:";
         "(Activate_message_mode off)"; "### Function Call Result:"; "Function Call:";
         "<|im_end|>"; "### Elysia Thunderscribe:" ];
     FUNCTION_CALL_PROMPT_START := "### Function Call:" +:+ nl;
     FUNCTION_CALL_PROMPT_END := nl;
     FUNCTION_PROMPT_START := "### Function Call Result:" +:+ nl;
     FUNCTION_PROMPT_END := nl;
     USE_USER_ROLE_FUNCTION_CALL_RESULT := false;
     STRIP_PROMPT := true;
     USE_FUNCTION_CALL_END := false |}.

(** * Part III: [MemGptAgent] of [src/memgpt_agent.py] *)

(** ** The memory tiers *)

Inductive EventType : Type :=
| UserMessage
| AgentMessage
| FunctionMessage
| SystemMessage.

(** An event: its type and its content (the metadata is [{}] at every call
    of the agent). *)
Record Event : Type := mkEvent {
  event_type : EventType;
  event_content : string
}.

(** The core memory manager, as far as the agent reads it: the
    [last_modified] attribute and what [build_core_memory_context()]
    returns. *)
Record CoreMemory : Type := mkCoreMemory {
  core_last_modified : string;
  core_memory_context : string
}.

(** ** The system prompt and the completion provider *)

(** The values [generate_prompt] substitutes in the template [sys_prompt2]
    (lines 198-204).  The dictionary of the source also has a
    [current_date_time] entry; the template has no such placeholder, so the
    entry does not reach the prompt and is left out. *)
Record PromptFields : Type := mkPrompt {
  documentation : string;
  last_modified : string;
  iam_content : string;
  ckv_count : nat;
  imb_count : nat
}.

(** The tools of the registry: [activate_message_mode] (line 164) and the
    tools of the three memory tiers, by the names the system prompt gives
    them. *)
Inductive ToolName : Type :=
| activate_message_mode
| core_memory_append
| core_memory_remove
| core_memory_replace
| archival_memory_insert
| archival_memory_search
| conversation_search
| conversation_search_date.

Definition tool_name (t : ToolName) : string :=
  match t with
  | activate_message_mode => "activate_message_mode"
  | core_memory_append => "core_memory_append"
  | core_memory_remove => "core_memory_remove"
  | core_memory_replace => "core_memory_replace"
  | archival_memory_insert => "archival_memory_insert"
  | archival_memory_search => "archival_memory_search"
  | conversation_search => "conversation_search"
  | conversation_search_date => "conversation_search_date"
  end.

(** A structured call as the model wrote it: the function, its parameters
    and the outer [request_heartbeat] field ([None] when the output has no
    such field). *)
Record ToolCall : Type := mkCall {
  call_function : ToolName;
  call_params : string;
  call_request_heartbeat : option bool
}.

(** What the provider generates: the raw text and, when the text is a
    structured call, the call it parses to. *)
Record ModelOutput : Type := mkOutput {
  raw : string;
  parsed : option ToolCall
}.

(** The arguments of one [get_chat_response] call that differ between the
    calls of the agent, and the state of the wrapped [LlamaCppAgent] it
    reads.  The sampling parameters (temperature, top_p, ...) are floating
    point constants and are left out. *)
Record GenRequest : Type := mkRequest {
  req_system_prompt : PromptFields;
  req_messages : list Message;
  req_role : option string;
  req_function_tool_registry : bool;
  req_n_predict : nat;
  req_formatter : MessagesFormatter
}.

(** The dictionary [result[0]] that [get_chat_response] returns for a
    structured call. *)
Record CallResult : Type := mkResult {
  function : string;
  return_value : string;
  request_heartbeat : option bool
}.

(** The value of [result]: a string, or the one-element list holding the
    dictionary of the dispatched call. *)
Inductive Result : Type :=
| RText (text : string)
| RCall (r : CallResult).

(** What the agent does to the outside, in order. *)
Inductive Effect : Type :=
| Generate (req : GenRequest)
| Dispatch (call : ToolCall)
| Callback (message : string)
| Print (message : string).

(** ** The agent object *)

(** The event memory is kept as the source uses it, in two parts: the queue
    of the event memory manager, which [add_event_to_queue] appends to and
    the message window is built from ([event_memory]), and the [Event] rows
    of the manager's database session, which [session.query(Event).all()]
    counts ([session_events]). *)
Record Agent : Type := mkAgent {
  event_memory : list Event;
  session_events : list Event;
  core_memory : CoreMemory;
  retrieval_memory : list string;
  messages_formatter : MessagesFormatter;
  messages : list Message;
  last_response : string;
  send_message_to_user_callback : bool;
  trace : list Effect
}.

Definition set_event_memory (v : list Event) (s : Agent) : Agent :=
  mkAgent v (session_events s) (core_memory s) (retrieval_memory s) (messages_formatter s)
    (messages s) (last_response s) (send_message_to_user_callback s) (trace s).
Definition set_tiers (rows : list Event) (c : CoreMemory) (r : list string) (s : Agent)
  : Agent :=
  mkAgent (event_memory s) rows c r (messages_formatter s) (messages s)
    (last_response s) (send_message_to_user_callback s) (trace s).
Definition set_messages_formatter (v : MessagesFormatter) (s : Agent) : Agent :=
  mkAgent (event_memory s) (session_events s) (core_memory s) (retrieval_memory s) v
    (messages s) (last_response s) (send_message_to_user_callback s) (trace s).
Definition set_messages (v : list Message) (s : Agent) : Agent :=
  mkAgent (event_memory s) (session_events s) (core_memory s) (retrieval_memory s)
    (messages_formatter s) v (last_response s) (send_message_to_user_callback s) (trace s).
Definition set_last_response (v : string) (s : Agent) : Agent :=
  mkAgent (event_memory s) (session_events s) (core_memory s) (retrieval_memory s)
    (messages_formatter s) (messages s) v (send_message_to_user_callback s) (trace s).
Definition log_effect (e : Effect) (s : Agent) : Agent :=
  mkAgent (event_memory s) (session_events s) (core_memory s) (retrieval_memory s)
    (messages_formatter s) (messages s) (last_response s) (send_message_to_user_callback s)
    (trace s ++ [e]).

(** [self.llama_cpp_agent.messages_formatter.USE_FUNCTION_CALL_END = v] *)
Definition with_USE_FUNCTION_CALL_END (v : bool) (f : MessagesFormatter) : MessagesFormatter :=
  mkFormatter (PRE_PROMPT f) (SYS_PROMPT_START f) (SYS_PROMPT_END f) (USER_PROMPT_START f)
    (USER_PROMPT_END f) (ASSISTANT_PROMPT_START f) (ASSISTANT_PROMPT_END f)
    (INCLUDE_SYS_PROMPT_IN_FIRST_USER_MESSAGE f) (DEFAULT_STOP_SEQUENCES f)
    (FUNCTION_CALL_PROMPT_START f) (FUNCTION_CALL_PROMPT_END f) (FUNCTION_PROMPT_START f)
    (FUNCTION_PROMPT_END f) (USE_USER_ROLE_FUNCTION_CALL_RESULT f) (STRIP_PROMPT f) v.

(** The number of generations so far. *)
Definition is_Generate (e : Effect) : bool :=
  match e with Generate _ => true | _ => false end.
Definition generation_count (tr : list Effect) : nat :=
  length (List.filter is_Generate tr).

(** The generations the controller itself asked for: the calls of
    [get_chat_response] that pass the tool registry (lines 206 and 238). *)
Definition is_round (e : Effect) : bool :=
  match e with Generate req => req_function_tool_registry req | _ => false end.
Definition generation_rounds (tr : list Effect) : nat :=
  length (List.filter is_round tr).

(** The messages handed to the user, by either way. *)
Definition user_message (e : Effect) : option string :=
  match e with Callback m | Print m => Some m | _ => None end.
Definition sent_to_user (tr : list Effect) : list string :=
  omap user_message tr.

(** ** The collaborators the source imports *)

(** What the agent is run against: the completion provider behind
    [LlamaCppAgent] (the text it generates at its [n]-th call, for the
    request it is given), the handlers of the memory tools, and the
    documentation of the tool registry.

    Modelled from the spec: the handlers ([memory/memory_tools.py] is not
    among the sources).  Section 2: a dispatched tool may mutate the core
    memory, the archival memory or the event log.  A handler is given the
    tool's parameters, the event queue, the [Event] rows of the session, the
    core memory and the archival memory; it gives the tool's return value
    and the rows, the core memory and the archival memory it leaves.  The
    queue is written by [add_event_to_queue] alone. *)
Record Collaborators : Type := mkCollaborators {
  llm : nat -> GenRequest -> ModelOutput;
  run_memory_tool :
    ToolName -> string -> list Event -> list Event -> CoreMemory -> list string ->
    string * list Event * CoreMemory * list string;
  get_documentation : string
}.

(** ** A monad for the methods: state, exceptions, fuel *)

Inductive Res (A : Type) : Type :=
| Ret (a : A) (s : Agent)
| Raise (e : PyExn) (s : Agent)
| OutOfFuel (s : Agent).
Arguments Ret {A} a s.
Arguments Raise {A} e s.
Arguments OutOfFuel {A} s.

Definition M (A : Type) : Type := Agent -> Res A.

Definition ret {A : Type} (a : A) : M A := fun s => Ret a s.
Definition bind {A B : Type} (m : M A) (k : A -> M B) : M B :=
  fun s =>
    match m s with
    | Ret a s' => k a s'
    | Raise e s' => Raise e s'
    | OutOfFuel s' => OutOfFuel s'
    end.
Definition raise {A : Type} (e : PyExn) : M A := fun s => Raise e s.
Definition out_of_fuel {A : Type} : M A := fun s => OutOfFuel s.
Definition gets {A : Type} (f : Agent -> A) : M A := fun s => Ret (f s) s.
Definition modify (f : Agent -> Agent) : M unit := fun s => Ret tt (f s).

Declare Scope agent_scope.
Delimit Scope agent_scope with agent.
Notation "x <- m ;; k" := (bind m (fun x => k))
  (at level 100, m at next level, right associativity) : agent_scope.
Notation "m ;; k" := (bind m (fun _ => k))
  (at level 100, right associativity) : agent_scope.

(** The agent a computation leaves, however it ends. *)
Definition state_of {A : Type} (r : Res A) : Agent :=
  match r with Ret _ s | Raise _ s | OutOfFuel s => s end.
Definition returned {A : Type} (r : Res A) : bool :=
  match r with Ret _ _ => true | _ => false end.

Local Open Scope agent_scope.

(** ** The event memory, as the agent uses it *)

(** Modelled from the spec: [add_event_to_queue] of the event memory manager
    ([memory/event_memory.py] is not among the sources).  Section 4.1:
    [append] always succeeds and keeps the order of the appends.  The event
    goes to the manager's queue, the list [build_event_memory_context] reads
    and [save_event_queue] (line 267) writes out. *)
Definition add_event_to_queue (t : EventType) (c : string) : M unit :=
  modify (fun s => set_event_memory (event_memory s ++ [mkEvent t c]) s).

(** Modelled from the spec: the role under which an event enters the message
    window (the event memory manager is not among the sources); the four
    event types of section 3 map to the four roles the formatter knows. *)
Definition event_type_to_role (t : EventType) : string :=
  match t with
  | UserMessage => "user"
  | AgentMessage => "assistant"
  | FunctionMessage => "function"
  | SystemMessage => "system"
  end.

(** Modelled from the spec: [build_event_memory_context] (not among the
    sources).  Section 4.6: the message window is rebuilt from the events
    appended so far, in order. *)
Definition build_event_memory_context : M (list Message) :=
  gets (fun s =>
    map (fun e => mkMessage (event_type_to_role (event_type e)) (CStr (event_content e)))
        (event_memory s)).

(** Modelled from the spec: [session.query(Event).all()] (the event store is
    not among the sources): the [Event] rows of the database session, which
    the source reads through another object than the queue it appends to.
    Section 8: on an empty log the recall count rendered right after the
    inbound message was appended is 0, so an append to the queue adds no
    row.  The list returned is a value of its own. *)
Definition session_query_all : M (list Event) :=
  gets session_events.

(** ** The prompt *)

(** Lines 198-204 (and 92-98, 230-236): the fields of the system prompt,
    read from the tiers at the moment of the call, except [imb_count], the
    length of the list [query] the caller holds. *)
Definition generate_prompt (w : Collaborators) (query : list Event) : M PromptFields :=
  gets (fun s =>
    {| documentation := get_documentation w;
       last_modified := core_last_modified (core_memory s);
       iam_content := core_memory_context (core_memory s);
       ckv_count := length (retrieval_memory s);
       imb_count := length query |}).

(** ** [LlamaCppAgent.get_chat_response] *)

(** Modelled from the spec: one blocking round-trip to the completion
    provider ([llama_cpp_agent] is an imported package).  Section 6: the
    provider is given the system prompt, the message window and the
    settings, and returns text or a structured call; section 4.6: the raw
    model output is what [last_response] holds afterwards. *)
Definition generate (w : Collaborators) (system_prompt : PromptFields)
  (role : option string) (function_tool_registry : bool) (n_predict : nat)
  : M ModelOutput :=
  fun s =>
    let req :=
      {| req_system_prompt := system_prompt;
         req_messages := messages s;
         req_role := role;
         req_function_tool_registry := function_tool_registry;
         req_n_predict := n_predict;
         req_formatter := messages_formatter s |} in
    let out := llm w (generation_count (trace s)) req in
    Ret out (log_effect (Generate req) (set_last_response (raw out) s)).

(** [get_chat_response] called without a tool registry (line 100): the
    generated text is the result. *)
Definition get_chat_response_text (w : Collaborators) (system_prompt : PromptFields)
  (role : option string) (n_predict : nat) : M string :=
  out <- generate w system_prompt role false n_predict ;;
  ret (raw out).

(** ** [MemGptAgent.send_message_to_user] (lines 253-263) *)

Definition send_message_to_user (message : string) : M unit :=
  fun s =>
    if send_message_to_user_callback s
    then Ret tt (log_effect (Callback message) s)
    else Ret tt (log_effect (Print message) s).

(** ** [activate_message_mode.run] (lines 82-112) *)

Definition activate_message_mode_run (w : Collaborators) : M string :=
  modify (fun s =>
    set_messages_formatter (with_USE_FUNCTION_CALL_END false (messages_formatter s)) s) ;;
  lr <- gets last_response ;;
  add_event_to_queue AgentMessage lr ;;
  add_event_to_queue FunctionMessage "Message mode activated." ;;
  msgs <- build_event_memory_context ;;
  modify (set_messages msgs) ;;
  query <- session_query_all ;;
  system_prompt <- generate_prompt w query ;;
  result <- get_chat_response_text w system_prompt (Some "assistant") 4096 ;;
  send_message_to_user result ;;
  ret "Message mode activated.".

(** ** The tool registry *)

(** Line 164 registers [activate_message_mode] with
    [add_outer_request_heartbeat_field=False]; the tools of the memory tiers
    are registered with the default of the registry, which line 184 sets to
    [add_request_heartbeat=True]. *)
Definition add_outer_request_heartbeat_field (t : ToolName) : bool :=
  match t with
  | activate_message_mode => false
  | _ => true
  end.

(** The [request_heartbeat] entry of the result of a dispatched call: the
    outer field of the call when the tool has one, [None] otherwise. *)
Definition dispatched_heartbeat (call : ToolCall) : option bool :=
  if add_outer_request_heartbeat_field (call_function call)
  then call_request_heartbeat call
  else None.

(** The handler bound to each tool: [run] for [activate_message_mode], the
    handler of the memory tier for the others. *)
Definition run_tool (w : Collaborators) (call : ToolCall) : M string :=
  match call_function call with
  | activate_message_mode => activate_message_mode_run w
  | t =>
      fun s =>
        let '(v, rows, c, r) :=
          run_memory_tool w t (call_params call) (event_memory s) (session_events s)
            (core_memory s) (retrieval_memory s) in
        Ret v (set_tiers rows c r s)
  end.

(** Modelled from the spec: the dispatch of a structured call by the tool
    registry ([llama_cpp_agent] is an imported package).  Section 4.4: the
    bound handler is invoked and its return value wrapped in the result; the
    outer request-heartbeat field is read independently of the return value,
    and a tool that disables the field never requests a heartbeat. *)
Definition handle_function_call (w : Collaborators) (call : ToolCall) : M CallResult :=
  modify (log_effect (Dispatch call)) ;;
  v <- run_tool w call ;;
  ret {| function := tool_name (call_function call);
         return_value := v;
         request_heartbeat := dispatched_heartbeat call |}.

(** [get_chat_response] called with the tool registry (lines 206 and 238):
    a structured call is dispatched and its result returned in a list, any
    other text is returned as it is. *)
Definition get_chat_response (w : Collaborators) (system_prompt : PromptFields)
  (n_predict : nat) : M Result :=
  out <- generate w system_prompt None true n_predict ;;
  match parsed out with
  | Some call => r <- handle_function_call w call ;; ret (RCall r)
  | None => ret (RText (raw out))
  end.

(** ** [MemGptAgent.get_response] (lines 189-251) *)

(** Lines 206-215 and 238-247: one generation with the registry, then the
    [AgentMessage] event that records [last_response]. *)
Definition generation_round (w : Collaborators) (query : list Event) : M Result :=
  system_prompt <- generate_prompt w query ;;
  result <- get_chat_response w system_prompt 1024 ;;
  lr <- gets last_response ;;
  add_event_to_queue AgentMessage lr ;;
  ret result.

(** The [while True] loop of lines 217-251, one unit of fuel per iteration;
    it returns the value of [result] at the [break].  [query] is the list
    bound at line 196: the loop never assigns it again. *)
Fixpoint heartbeat_loop (w : Collaborators) (fuel : nat) (query : list Event)
  (result : Result) : M Result :=
  match fuel with
  | O => out_of_fuel
  | S fuel' =>
      match result with
      | RText EmptyString => raise (IndexError "string index out of range")
      | RText text =>
          (* [result[0]] is a string: line 225, then the last branch, line 251 *)
          add_event_to_queue FunctionMessage text ;;
          add_event_to_queue FunctionMessage text ;;
          heartbeat_loop w fuel' query result
      | RCall r =>
          (if negb (String.eqb (function r) "activate_message_mode")
           then add_event_to_queue FunctionMessage (return_value r)
           else ret tt) ;;
          match request_heartbeat r with
          | Some true =>
              msgs <- build_event_memory_context ;;
              modify (set_messages msgs) ;;
              result' <- generation_round w query ;;
              heartbeat_loop w fuel' query result'
          | _ => ret result
          end
      end
  end.

Definition get_response (w : Collaborators) (fuel : nat) (message : string) : M unit :=
  modify (fun s =>
    set_messages_formatter (with_USE_FUNCTION_CALL_END true (messages_formatter s)) s) ;;
  add_event_to_queue UserMessage message ;;
  msgs <- build_event_memory_context ;;
  modify (set_messages msgs) ;;
  query <- session_query_all ;;
  result <- generation_round w query ;;
  heartbeat_loop w fuel query result ;;
  ret tt.

(** ** Concrete agents and providers, for the examples *)

(** An agent right after construction: empty tiers, no callback. *)
Definition fresh_agent : Agent :=
  {| event_memory := [];
     session_events := [];
     core_memory := mkCoreMemory "" "";
     retrieval_memory := [];
     messages_formatter := custom_chat_ml_formatter;
     messages := [];
     last_response := "";
     send_message_to_user_callback := false;
     trace := [] |}.

(** The output of the model for a call of tool [t] with outer heartbeat
    field [hb], and for plain text. *)
Definition call_output (t : ToolName) (hb : option bool) : ModelOutput :=
  {| raw := "{ function: " +:+ tool_name t +:+ " }";
     parsed := Some (mkCall t "{}" hb) |}.
Definition text_output (text : string) : ModelOutput :=
  {| raw := text; parsed := None |}.

(** A provider that plays a script, one output per generation, and repeats
    [after] once the script is over; memory tools that change nothing. *)
Definition scripted (script : list ModelOutput) (after : ModelOutput) : Collaborators :=
  {| llm := fun n _ => nth n script after;
     run_memory_tool := fun _ _ _ rows c r => ("OK", rows, c, r);
     get_documentation := "activate_message_mode: Activate the message mode." |}.

(** A provider whose every output calls [core_memory_append] and asks for a
    heartbeat. *)
Definition always_heartbeat : Collaborators :=
  scripted [] (call_output core_memory_append (Some true)).

(** ** What the statements about [format_messages] are phrased with *)

(** The four roles [format_messages] has a branch for. *)
Definition known_role (r : string) : bool :=
  String.eqb r "system" || String.eqb r "user" || String.eqb r "assistant"
  || String.eqb r "function".

(** The contents the signature of [format_messages] and its [isinstance]
    test allow: a string, or a list outside the three roles whose content
    is concatenated as it is. *)
Definition typed_content (m : Message) : bool :=
  match content m with
  | CStr _ => true
  | CList _ =>
      negb (String.eqb (role m) "system" || String.eqb (role m) "user"
            || String.eqb (role m) "assistant")
  end.

Definition typed_reference (h : Heap) (addr : nat) : bool :=
  match h !! addr with
  | Some m => typed_content m
  | None => false
  end.

(** The change of one entry as the specification words it: an assistant
    entry gets its content stripped when [STRIP_PROMPT] is set, a function
    entry with a list content gets the newline-joined JSON of the items, any
    other entry stays as it is. *)
Definition in_place_effect (json_dumps : JsonDumps) (self : MessagesFormatter)
  (m : Message) : Message :=
  if String.eqb (role m) "assistant" then
    match content m with
    | CStr s => if STRIP_PROMPT self then mkMessage (role m) (CStr (strip s)) else m
    | CList _ => m
    end
  else if String.eqb (role m) "function" then
    match content m with
    | CList items => mkMessage (role m) (CStr (join newline (map json_dumps items)))
    | CStr _ => m
    end
  else m.

(** A [json.dumps] for the examples: only the shape of the value. *)
Definition shape_dumps : JsonDumps :=
  fun v =>
    match v with
    | JNull => "null"
    | JBool true => "true"
    | JBool false => "false"
    | JNum _ => "0"
    | JStr s => s
    | JList _ => "[]"
    | JDict _ => "{}"
    end.

(** A heap of five dictionaries for the examples; the list of messages
    names the assistant entry twice. *)
Definition example_heap : Heap :=
  [ mkMessage "system" (CStr "You are a game master.");
    mkMessage "assistant" (CStr "  { call }  ");
    mkMessage "function" (CList [JStr "a"; JBool true]);
    mkMessage "tool" (CList [JNull]);
    mkMessage "assistant" (CStr " untouched ") ].
Definition example_messages : list nat := [0; 1; 2; 3; 1].

(** ** What the statements about the agent are phrased with *)

(** The requests of the generations of a trace, in order. *)
Definition generation_request (e : Effect) : option GenRequest :=
  match e with Generate req => Some req | _ => None end.
Definition requests (tr : list Effect) : list GenRequest :=
  omap generation_request tr.

(** The system prompt rendered from the state of the tiers in [s]: the core
    memory's timestamp and content, the number of archival entries, the
    number of [Event] rows. *)
Definition current_prompt (w : Collaborators) (s : Agent) : PromptFields :=
  {| documentation := get_documentation w;
     last_modified := core_last_modified (core_memory s);
     iam_content := core_memory_context (core_memory s);
     ckv_count := length (retrieval_memory s);
     imb_count := length (session_events s) |}.

(** The round, the loop and the turn as the specification words them: before
    every generation the prompt is rendered from the tiers as they are at
    that moment, the event rows being queried again.  They differ from
    [generation_round], [heartbeat_loop] and [get_response] in that alone. *)
Definition generation_round_fresh (w : Collaborators) : M Result :=
  system_prompt <- gets (current_prompt w) ;;
  result <- get_chat_response w system_prompt 1024 ;;
  lr <- gets last_response ;;
  add_event_to_queue AgentMessage lr ;;
  ret result.

Fixpoint heartbeat_loop_fresh (w : Collaborators) (fuel : nat) (result : Result)
  : M Result :=
  match fuel with
  | O => out_of_fuel
  | S fuel' =>
      match result with
      | RText EmptyString => raise (IndexError "string index out of range")
      | RText text =>
          add_event_to_queue FunctionMessage text ;;
          add_event_to_queue FunctionMessage text ;;
          heartbeat_loop_fresh w fuel' result
      | RCall r =>
          (if negb (String.eqb (function r) "activate_message_mode")
           then add_event_to_queue FunctionMessage (return_value r)
           else ret tt) ;;
          match request_heartbeat r with
          | Some true =>
              msgs <- build_event_memory_context ;;
              modify (set_messages msgs) ;;
              result' <- generation_round_fresh w ;;
              heartbeat_loop_fresh w fuel' result'
          | _ => ret result
          end
      end
  end.

Definition get_response_fresh (w : Collaborators) (fuel : nat) (message : string)
  : M unit :=
  modify (fun s =>
    set_messages_formatter (with_USE_FUNCTION_CALL_END true (messages_formatter s)) s) ;;
  add_event_to_queue UserMessage message ;;
  msgs <- build_event_memory_context ;;
  modify (set_messages msgs) ;;
  result <- generation_round_fresh w ;;
  heartbeat_loop_fresh w fuel result ;;
  ret tt.

(** Memory tools with an effect, for the examples: [archival_memory_insert]
    files its parameters as a new entry, [core_memory_append] appends them to
    the core memory and stamps it, [conversation_search] commits a row that
    records the search to the session; the others change nothing. *)
Definition filing (script : list ModelOutput) (after : ModelOutput) : Collaborators :=
  {| llm := fun n _ => nth n script after;
     run_memory_tool := fun t params _ rows c r =>
       match t with
       | archival_memory_insert => ("filed", rows, c, r ++ [params])
       | core_memory_append =>
           ("appended", rows, mkCoreMemory "now" (core_memory_context c +:+ params), r)
       | conversation_search =>
           ("No results.", rows ++ [mkEvent SystemMessage ("search: " +:+ params)], c, r)
       | _ => ("OK", rows, c, r)
       end;
     get_documentation := "activate_message_mode: Activate the message mode." |}.

(** An agent with a history: two rows in the session, one archival entry. *)
Definition seasoned_agent : Agent :=
  {| event_memory := [];
     session_events := [mkEvent UserMessage "Hi"; mkEvent AgentMessage "Welcome."];
     core_memory := mkCoreMemory "then" "Players: Elysia.";
     retrieval_memory := ["The inn burned down."];
     messages_formatter := custom_chat_ml_formatter;
     messages := [];
     last_response := "";
     send_message_to_user_callback := true;
     trace := [] |}.

(** Does [result] ask for another heartbeat (the test of line 226)? *)
Definition requests_heartbeat (result : Result) : bool :=
  match result with
  | RCall r =>
      match request_heartbeat r with
      | Some true => true
      | _ => false
      end
  | RText _ => false
  end.

(** The agent after lines 192-195 of [get_response]: the formatter switched
    to function calls, the [UserMessage] event appended, the message window
    rebuilt. *)
Definition turn_start (message : string) (s : Agent) : Agent :=
  let s1 := set_messages_formatter
              (with_USE_FUNCTION_CALL_END true (messages_formatter s)) s in
  let s2 := set_event_memory (event_memory s1 ++ [mkEvent UserMessage message]) s1 in
  set_messages
    (map (fun e => mkMessage (event_type_to_role (event_type e)) (CStr (event_content e)))
         (event_memory s2)) s2.

(** The event log and the trace only grow. *)
Definition extends (s s' : Agent) : Prop :=
  (exists ev, event_memory s' = event_memory s ++ ev) /\
  (exists tr, trace s' = trace s ++ tr).

(** A computation under which they only grow, however it ends. *)
Definition grows {A : Type} (m : M A) : Prop :=
  forall s, extends s (state_of (m s)).

(** ** What the further statements are phrased with *)

(** Does the constructor's validation let the pairing through? *)
Definition accepted (llama_llm : LlmProvider)
  (llama_generation_settings : option GenerationSettings) : bool :=
  match validate_settings llama_llm llama_generation_settings with
  | inr _ => true
  | inl _ => false
  end.

(** A dictionary without the key [k]. *)
Fixpoint dict_remove (k : string) (d : list (string * JValue)) : list (string * JValue) :=
  match d with
  | [] => []
  | (k', v) :: r =>
      if String.eqb k k' then dict_remove k r else (k', v) :: dict_remove k r
  end.

(** Is [addr] something else than a reference to an entry whose role
    [format_messages] has no branch for? *)
Definition known_reference (h : Heap) (addr : nat) : bool :=
  match h !! addr with
  | Some m => known_role (role m)
  | None => true
  end.

(** The roles of the entries a list of references names. *)
Definition referenced_roles (h : Heap) (messages : list nat) : list string :=
  omap (fun addr => role <$> h !! addr) messages.

(** Is the last entry with a known role an assistant entry, or is there no
    entry with a known role? *)
Definition ends_with_assistant (roles : list string) : bool :=
  fold_left (fun acc r => if known_role r then String.eqb r "assistant" else acc)
    roles true.

(** The request of the generation [generation_round] makes in state [s]
    (lines 198-213 and 230-245). *)
Definition round_request (w : Collaborators) (query : list Event) (s : Agent) : GenRequest :=
  {| req_system_prompt :=
       {| documentation := get_documentation w;
          last_modified := core_last_modified (core_memory s);
          iam_content := core_memory_context (core_memory s);
          ckv_count := length (retrieval_memory s);
          imb_count := length query |};
     req_messages := messages s;
     req_role := None;
     req_function_tool_registry := true;
     req_n_predict := 1024;
     req_formatter := messages_formatter s |}.

(** A generation fits its mode when the formatter ends the prompt with the
    opener of a function call exactly in the rounds of the controller (those
    with the tool registry). *)
Definition fits_its_mode (e : Effect) : bool :=
  match e with
  | Generate req =>
      Bool.eqb (USE_FUNCTION_CALL_END (req_formatter req)) (req_function_tool_registry req)
  | _ => true
  end.

(** No call of [activate_message_mode] the provider writes carries a true
    outer [request_heartbeat] field (line 164 registers the tool without that
    field, so the grammar the provider is held to has none for it). *)
Definition message_mode_asks_no_heartbeat (w : Collaborators) : Prop :=
  forall i req c,
    parsed (llm w i req) = Some c ->
    call_function c = activate_message_mode ->
    call_request_heartbeat c <> Some true.

(** [example_heap] after one call of [format_messages] on
    [example_messages], and what that call returns. *)
Definition example_heap_formatted : Heap :=
  [ mkMessage "system" (CStr "You are a game master.");
    mkMessage "assistant" (CStr "{ call }");
    mkMessage "function" (CStr ("a" +:+ newline +:+ "true"));
    mkMessage "tool" (CList [JNull]);
    mkMessage "assistant" (CStr " untouched ") ].
Definition example_output : string * string :=
  ("### Instructions:" +:+ newline +:+ "You are a game master." +:+ newline
   +:+ "### Function Call:" +:+ newline +:+ "{ call }" +:+ newline
   +:+ "### Function Call Result:" +:+ newline +:+ "a" +:+ newline +:+ "true" +:+ newline
   +:+ "### Function Call:" +:+ newline +:+ "{ call }" +:+ newline
   +:+ "### Elysia Thunderscribe:",
   "user").

(** A formatter with a non-empty [PRE_PROMPT], and a heap whose second entry
    has a content [format_messages] cannot concatenate. *)
Definition bos_formatter : MessagesFormatter :=
  mkFormatter "<s>" "[SYS]" "[/SYS]" "[USER]" "[/USER]" "[BOT]" "[/BOT]" false []
    "[CALL]" "[/CALL]" "[RESULT]" "[/RESULT]" true true false.
Definition broken_heap : Heap :=
  [ mkMessage "assistant" (CStr " hello ");
    mkMessage "user" (CList [JNull]);
    mkMessage "assistant" (CStr " later ") ].

(** * Part IV: properties *)

(** ** The constructor's validation *)

Lemma validate_settings_llama_cpp_settings_ok (g : option GenerationSettings) :
  compatible LlamaLLMSettings g = true ->
  validate_settings LlamaLLMSettings g = inr LlamaLLMGenerationSettings.
Proof. destruct g as [[]|]; simpl; intros H; try discriminate H; reflexivity. Qed.

Lemma validate_settings_openai_ok (g : option GenerationSettings) :
  compatible OpenAIEndpointSettings g = true ->
  validate_settings OpenAIEndpointSettings g = inr OpenAIGenerationSettings.
Proof. destruct g as [[]|]; simpl; intros H; try discriminate H; reflexivity. Qed.

(** C6: the constructor does not accept every compatible pairing.  A [Llama]
    provider is rejected whatever the generation settings are, also with
    [LlamaLLMGenerationSettings] and with the settings left unset, which are
    the pairings the raised message itself asks for. *)
Theorem C6_llama_provider_always_rejected :
  compatible Llama (Some LlamaLLMGenerationSettings) = true /\
  compatible Llama None = true /\
  forall g : option GenerationSettings,
    validate_settings Llama g = inl (Exception wrong_settings_llama_cpp_python).
Proof.
  split; [reflexivity|]. split; [reflexivity|].
  intros [[]|]; reflexivity.
Qed.

(** ** Saving and loading a formatter *)

Lemma unexpected_keyword_as_dict (self : MessagesFormatter) :
  unexpected_keyword (as_dict self) = Some "USE_FUNCTION_CALL_END".
Proof. reflexivity. Qed.

Lemma read_after_write (fs : FileSystem) (p : string) (doc : JValue) :
  write_file fs p doc p = Some doc.
Proof. unfold write_file. now rewrite String.eqb_refl. Qed.

(** C9: saving a formatter and loading the file again does not give the
    formatter back.  The saved dictionary is [self.__dict__], which holds
    the attribute [USE_FUNCTION_CALL_END]; [__init__] has no parameter of
    that name, so the load raises a [TypeError], for every formatter, path
    and file system. *)
Theorem C9_load_after_save_raises :
  forall (self : MessagesFormatter) (file_path : string) (fs : FileSystem),
    load_from_file file_path (save self file_path fs)
    = inl (TypeError "__init__() got an unexpected keyword argument 'USE_FUNCTION_CALL_END'").
Proof.
  intros self file_path fs. unfold load_from_file, save.
  rewrite read_after_write. unfold init_kwargs.
  rewrite unexpected_keyword_as_dict. reflexivity.
Qed.

(** ** [format_messages]: what it does to the dictionaries *)

Lemma lstrip_chars_head (l : list ascii) :
  match lstrip_chars l with
  | [] => True
  | c :: _ => isspace c = false
  end.
Proof.
  induction l as [|c r IH]; simpl; [exact I|].
  destruct (isspace c) eqn:E; [exact IH | exact E].
Qed.

Lemma rstrip_chars_cons (c : ascii) (r : list ascii) :
  isspace c = false -> rstrip_chars (c :: r) = c :: rstrip_chars r.
Proof. intros E. simpl. rewrite E. now destruct (rstrip_chars r). Qed.

Lemma rstrip_chars_idempotent (l : list ascii) :
  rstrip_chars (rstrip_chars l) = rstrip_chars l.
Proof.
  induction l as [|c r IH]; simpl; [reflexivity|].
  destruct (rstrip_chars r) as [|c' r'] eqn:E.
  - destruct (isspace c) eqn:Ec; simpl; [reflexivity | now rewrite Ec].
  - change (rstrip_chars (c :: c' :: r') = c :: c' :: r').
    cbn [rstrip_chars] in IH |- *.
    destruct (rstrip_chars r') eqn:E'.
    + destruct (isspace c'); [discriminate IH | congruence].
    + congruence.
Qed.

Lemma lstrip_rstrip_lstrip (l : list ascii) :
  lstrip_chars (rstrip_chars (lstrip_chars l)) = rstrip_chars (lstrip_chars l).
Proof.
  pose proof (lstrip_chars_head l) as H.
  destruct (lstrip_chars l) as [|c r]; [reflexivity|].
  rewrite (rstrip_chars_cons c r H). simpl. now rewrite H.
Qed.

Lemma strip_idempotent (s : string) : strip (strip s) = strip s.
Proof.
  unfold strip. rewrite list_ascii_of_string_of_list_ascii.
  now rewrite lstrip_rstrip_lstrip, rstrip_chars_idempotent.
Qed.

Lemma in_place_effect_role j f m : role (in_place_effect j f m) = role m.
Proof.
  unfold in_place_effect.
  destruct (String.eqb (role m) "assistant"), (String.eqb (role m) "function"),
    (content m), (STRIP_PROMPT f); reflexivity.
Qed.

Lemma in_place_effect_idempotent j f m :
  in_place_effect j f (in_place_effect j f m) = in_place_effect j f m.
Proof.
  unfold in_place_effect.
  destruct (String.eqb (role m) "assistant") eqn:Ea.
  - destruct (content m) eqn:Ec; [|now rewrite Ea, Ec].
    destruct (STRIP_PROMPT f) eqn:Es; simpl.
    + now rewrite Ea, strip_idempotent.
    + now rewrite Ea, Ec.
  - destruct (String.eqb (role m) "function") eqn:Ef.
    + destruct (content m) eqn:Ec; simpl; now rewrite Ea, Ef, ?Ec.
    + now rewrite Ea, Ef.
Qed.

Lemma in_place_effect_typed j f m :
  typed_content m = true -> typed_content (in_place_effect j f m) = true.
Proof.
  unfold in_place_effect, typed_content. intros Ht.
  destruct m as [r c]; cbn [role content] in *.
  destruct (String.eqb r "assistant") eqn:Ea.
  - destruct c; [|now rewrite orb_true_r in Ht]. now destruct (STRIP_PROMPT f).
  - destruct (String.eqb r "function") eqn:Ef.
    + destruct c; cbn [role content]; reflexivity.
    + destruct c; cbn [role content]; [reflexivity | now rewrite Ea].
Qed.

Lemma in_place_effect_unknown j f m :
  known_role (role m) = false -> in_place_effect j f m = m.
Proof.
  unfold known_role, in_place_effect. intros H.
  apply orb_false_elim in H as [H Hf]. apply orb_false_elim in H as [_ Ha].
  now rewrite Ha, Hf.
Qed.

Lemma format_step_unknown j f st a m :
  heap st !! a = Some m -> known_role (role m) = false -> format_step j f st a = inr st.
Proof.
  unfold known_role, format_step. intros Hm H. rewrite Hm.
  apply orb_false_elim in H as [H Hf]. apply orb_false_elim in H as [H Ha].
  apply orb_false_elim in H as [Hs Hu].
  now rewrite Hs, Hu, Ha, Hf.
Qed.

Lemma format_step_typed j f st a m :
  heap st !! a = Some m -> typed_content m = true ->
  exists st', format_step j f st a = inr st' /\
              heap st' = <[a := in_place_effect j f m]> (heap st).
Proof.
  intros Hm Ht. unfold format_step, in_place_effect. rewrite Hm.
  unfold typed_content in Ht.
  destruct m as [r c]; cbn [role content] in *.
  destruct (String.eqb r "system") eqn:Es.
  { destruct c as [s|items]; [|discriminate Ht].
    apply String.eqb_eq in Es. subst r. simpl.
    destruct (INCLUDE_SYS_PROMPT_IN_FIRST_USER_MESSAGE f);
      (eexists; split; [reflexivity|]); simpl; symmetry; now apply list_insert_id. }
  destruct (String.eqb r "user") eqn:Eu.
  { destruct c as [s|items]; [|discriminate Ht].
    apply String.eqb_eq in Eu. subst r. simpl.
    destruct (no_user_prompt_start st);
      (eexists; split; [reflexivity|]); simpl; symmetry; now apply list_insert_id. }
  destruct (String.eqb r "assistant") eqn:Ea.
  { destruct c as [s|items]; [|discriminate Ht].
    eexists; split; [reflexivity|]. simpl.
    destruct (STRIP_PROMPT f); [reflexivity|]. symmetry; now apply list_insert_id. }
  destruct (String.eqb r "function") eqn:Ef.
  { destruct c as [s|items]; simpl;
      destruct (USE_USER_ROLE_FUNCTION_CALL_RESULT f);
      (eexists; split; [reflexivity|]); simpl; try reflexivity;
      symmetry; now apply list_insert_id. }
  eexists; split; [reflexivity|]. symmetry; now apply list_insert_id.
Qed.

Lemma typed_reference_insert j f h a0 m a :
  h !! a0 = Some m -> typed_content m = true ->
  typed_reference h a = true ->
  typed_reference (<[a0 := in_place_effect j f m]> h) a = true.
Proof.
  intros Hm Ht Ha. unfold typed_reference in *.
  destruct (decide (a0 = a)) as [->|Hne].
  - rewrite list_lookup_insert_eq by (eapply lookup_lt_Some; exact Hm).
    now apply in_place_effect_typed.
  - now rewrite list_lookup_insert_ne.
Qed.

Lemma format_loop_typed j f (messages : list nat) :
  forall st,
    forallb (typed_reference (heap st)) messages = true ->
    exists st', format_loop j f messages st = inr st' /\
      forall a,
        heap st' !! a =
        if bool_decide (a ∈ messages)
        then in_place_effect j f <$> heap st !! a
        else heap st !! a.
Proof.
  induction messages as [|a0 rest IH]; intros st Hall.
  - exists st. split; [reflexivity|]. intros a. reflexivity.
  - cbn [forallb] in Hall. apply andb_true_iff in Hall as [H0 Hrest].
    unfold typed_reference in H0.
    destruct (heap st !! a0) as [m|] eqn:Hm; [|discriminate H0].
    destruct (format_step_typed j f st a0 m Hm H0) as (st1 & Hstep & Hheap).
    destruct (IH st1) as (st' & Hloop & Hlook).
    { rewrite Hheap. apply forallb_forall. intros a Ha.
      apply typed_reference_insert; [exact Hm | exact H0 |].
      rewrite forallb_forall in Hrest. now apply Hrest. }
    exists st'. split; [cbn [format_loop]; now rewrite Hstep|].
    intros a. rewrite Hlook, Hheap.
    destruct (decide (a0 = a)) as [->|Hne].
    + rewrite list_lookup_insert_eq by (eapply lookup_lt_Some; exact Hm).
      rewrite Hm. rewrite (bool_decide_eq_true_2 (a ∈ a :: rest)) by left.
      case_bool_decide; cbn; [now rewrite in_place_effect_idempotent | reflexivity].
    + rewrite list_lookup_insert_ne by exact Hne.
      assert (a ∈ a0 :: rest <-> a ∈ rest) as Hiff.
      { rewrite elem_of_cons. intuition congruence. }
      now rewrite (bool_decide_ext _ _ Hiff).
Qed.

Example strip_example : strip (" " +:+ newline +:+ "{ call } " +:+ newline) = "{ call }".
Proof. reflexivity. Qed.

Example format_messages_example :
  format_messages shape_dumps custom_chat_ml_formatter example_heap example_messages
  = ( [ mkMessage "system" (CStr "You are a game master.");
        mkMessage "assistant" (CStr "{ call }");
        mkMessage "function" (CStr ("a" +:+ newline +:+ "true"));
        mkMessage "tool" (CList [JNull]);
        mkMessage "assistant" (CStr " untouched ") ],
      inr ("### Instructions:" +:+ newline +:+ "You are a game master." +:+ newline
           +:+ "### Function Call:" +:+ newline +:+ "{ call }" +:+ newline
           +:+ "### Function Call Result:" +:+ newline +:+ "a" +:+ newline +:+ "true"
           +:+ newline
           +:+ "### Function Call:" +:+ newline +:+ "{ call }" +:+ newline
           +:+ "### Elysia Thunderscribe:",
           "user") ).
Proof. vm_compute. reflexivity. Qed.

(** A list content under a role that concatenates it raises, and leaves the
    entries after it as they were. *)
Example format_messages_raises :
  format_messages shape_dumps custom_chat_ml_formatter
    [ mkMessage "user" (CList []); mkMessage "assistant" (CStr " x ") ] [0; 1]
  = ( [ mkMessage "user" (CList []); mkMessage "assistant" (CStr " x ") ],
      inl (TypeError "can only concatenate str (not list) to str") ).
Proof. reflexivity. Qed.

(** C10: [format_messages] changes its input in place.  For messages whose
    contents have the types the function handles, the call returns, and
    afterwards every dictionary the list refers to holds the stripped content
    (assistant role, [STRIP_PROMPT] set) or the newline-joined JSON of its
    list (function role) and is otherwise as before; dictionaries the list
    does not refer to are untouched, no role changes, and an entry with
    another role than the four leaves the loop's state as it is, without
    error. *)
Theorem C10_format_messages_in_place :
  forall (json_dumps : JsonDumps) (self : MessagesFormatter) (h : Heap)
         (messages : list nat),
    forallb (typed_reference h) messages = true ->
    exists (out : string * string) (h' : Heap),
      format_messages json_dumps self h messages = (h', inr out) /\
      (forall a m, h !! a = Some m ->
         h' !! a = Some (if bool_decide (a ∈ messages)
                         then in_place_effect json_dumps self m else m)) /\
      map role h' = map role h /\
      (forall st a m, heap st !! a = Some m -> known_role (role m) = false ->
         format_step json_dumps self st a = inr st /\
         in_place_effect json_dumps self m = m).
Proof.
  intros j f h messages Hall.
  destruct (format_loop_typed j f messages (mkLoop (PRE_PROMPT f) "assistant" false h) Hall)
    as (st' & Hloop & Hlook).
  cbn [heap] in Hlook.
  exists (format_return f st'), (heap st'). split; [|split; [|split]].
  - unfold format_messages. now rewrite Hloop.
  - intros a m Hm. rewrite Hlook, Hm. now case_bool_decide.
  - apply list_eq. intros i. rewrite !list_lookup_fmap, Hlook.
    case_bool_decide; [|reflexivity].
    destruct (h !! i) as [m|]; cbn; [|reflexivity].
    now rewrite in_place_effect_role.
  - intros st a m Hm Hr. split.
    + now apply format_step_unknown with m.
    + now apply in_place_effect_unknown.
Qed.

Lemma C10_witness :
  forallb (typed_reference example_heap) example_messages = true /\
  exists (out : string * string) (h' : Heap),
    format_messages shape_dumps custom_chat_ml_formatter example_heap example_messages
    = (h', inr out) /\
    (forall a m, example_heap !! a = Some m ->
       h' !! a = Some (if bool_decide (a ∈ example_messages)
                       then in_place_effect shape_dumps custom_chat_ml_formatter m
                       else m)) /\
    map role h' = map role example_heap /\
    (forall st a m, heap st !! a = Some m -> known_role (role m) = false ->
       format_step shape_dumps custom_chat_ml_formatter st a = inr st /\
       in_place_effect shape_dumps custom_chat_ml_formatter m = m).
Proof.
  split; [reflexivity|].
  apply (C10_format_messages_in_place shape_dumps custom_chat_ml_formatter
           example_heap example_messages).
  reflexivity.
Defined.

(** ** The agent: counting the effects of a trace *)

Lemma generation_count_app (tr tr' : list Effect) :
  generation_count (tr ++ tr') = generation_count tr + generation_count tr'.
Proof. unfold generation_count. now rewrite List.filter_app, length_app. Qed.

Lemma generation_rounds_app (tr tr' : list Effect) :
  generation_rounds (tr ++ tr') = generation_rounds tr + generation_rounds tr'.
Proof. unfold generation_rounds. now rewrite List.filter_app, length_app. Qed.

Lemma sent_to_user_app (tr tr' : list Effect) :
  sent_to_user (tr ++ tr') = sent_to_user tr ++ sent_to_user tr'.
Proof. unfold sent_to_user. apply omap_app. Qed.

Lemma dispatched_heartbeat_Some (c : ToolCall) (b : bool) :
  dispatched_heartbeat c = Some b ->
  call_function c <> activate_message_mode /\ call_request_heartbeat c = Some b.
Proof.
  unfold dispatched_heartbeat. destruct (call_function c); simpl; intros H;
    try discriminate H; split; congruence.
Qed.

(** ** The log and the trace only grow *)

Ltac frame_extends :=
  split; exists []; cbn; now rewrite app_nil_r.

Lemma extends_refl (s : Agent) : extends s s.
Proof. frame_extends. Qed.

Lemma extends_trans (s1 s2 s3 : Agent) : extends s1 s2 -> extends s2 s3 -> extends s1 s3.
Proof.
  intros [[e1 He1] [t1 Ht1]] [[e2 He2] [t2 Ht2]]. split.
  - exists (e1 ++ e2). now rewrite He2, He1, app_assoc.
  - exists (t1 ++ t2). now rewrite Ht2, Ht1, app_assoc.
Qed.

Lemma grows_ret {A : Type} (a : A) : grows (ret a).
Proof. intros s. apply extends_refl. Qed.

Lemma grows_raise {A : Type} (e : PyExn) : grows (@raise A e).
Proof. intros s. apply extends_refl. Qed.

Lemma grows_out_of_fuel {A : Type} : grows (@out_of_fuel A).
Proof. intros s. apply extends_refl. Qed.

Lemma grows_gets {A : Type} (f : Agent -> A) : grows (gets f).
Proof. intros s. apply extends_refl. Qed.

Lemma grows_bind {A B : Type} (m : M A) (k : A -> M B) :
  grows m -> (forall a, grows (k a)) -> grows (bind m k).
Proof.
  intros Hm Hk s. unfold bind. specialize (Hm s).
  destruct (m s) as [a s'|e s'|s']; cbn in *; [|exact Hm|exact Hm].
  eapply extends_trans; [exact Hm | apply Hk].
Qed.

Lemma grows_modify (f : Agent -> Agent) :
  (forall s, extends s (f s)) -> grows (modify f).
Proof. intros H s. apply H. Qed.

Lemma extends_set_messages (v : list Message) (s : Agent) : extends s (set_messages v s).
Proof. frame_extends. Qed.

Lemma extends_set_messages_formatter (v : MessagesFormatter) (s : Agent) :
  extends s (set_messages_formatter v s).
Proof. frame_extends. Qed.

Lemma extends_set_tiers (rows : list Event) (c : CoreMemory) (r : list string)
  (s : Agent) :
  extends s (set_tiers rows c r s).
Proof. frame_extends. Qed.

Lemma extends_set_last_response (v : string) (s : Agent) :
  extends s (set_last_response v s).
Proof. frame_extends. Qed.

Lemma extends_log_effect (e : Effect) (s : Agent) : extends s (log_effect e s).
Proof. split; [exists []; cbn; now rewrite app_nil_r | now exists [e]]. Qed.

Lemma extends_add_event (ev : list Event) (s : Agent) :
  extends s (set_event_memory (event_memory s ++ ev) s).
Proof. split; [now exists ev | exists []; cbn; now rewrite app_nil_r]. Qed.

Create HintDb grows.
#[local] Hint Resolve grows_ret grows_raise grows_out_of_fuel grows_gets grows_modify
  extends_set_messages extends_set_messages_formatter extends_set_tiers
  extends_set_last_response extends_log_effect extends_add_event extends_refl : grows.

Ltac grows_step :=
  repeat first
    [ solve [eauto with grows]
    | apply grows_bind; [|intros ?] ].

Lemma grows_add_event_to_queue (t : EventType) (c : string) : grows (add_event_to_queue t c).
Proof. unfold add_event_to_queue. eauto with grows. Qed.

Lemma grows_build_event_memory_context : grows build_event_memory_context.
Proof. unfold build_event_memory_context. eauto with grows. Qed.

Lemma grows_session_query_all : grows session_query_all.
Proof. unfold session_query_all. eauto with grows. Qed.

Lemma grows_generate_prompt (w : Collaborators) (q : list Event) : grows (generate_prompt w q).
Proof. unfold generate_prompt. eauto with grows. Qed.

Lemma grows_generate (w : Collaborators) (sp : PromptFields) (role : option string)
  (reg : bool) (n : nat) : grows (generate w sp role reg n).
Proof.
  intros s. unfold generate. cbn [state_of].
  eapply extends_trans; [apply extends_set_last_response | apply extends_log_effect].
Qed.

Lemma grows_send_message_to_user (m : string) : grows (send_message_to_user m).
Proof.
  intros s. unfold send_message_to_user.
  destruct (send_message_to_user_callback s); apply extends_log_effect.
Qed.

#[local] Hint Resolve grows_add_event_to_queue grows_build_event_memory_context
  grows_session_query_all grows_generate_prompt grows_generate
  grows_send_message_to_user : grows.

Lemma grows_get_chat_response_text (w : Collaborators) (sp : PromptFields)
  (role : option string) (n : nat) : grows (get_chat_response_text w sp role n).
Proof. unfold get_chat_response_text. grows_step. Qed.

#[local] Hint Resolve grows_get_chat_response_text : grows.

Lemma grows_activate_message_mode_run (w : Collaborators) :
  grows (activate_message_mode_run w).
Proof. unfold activate_message_mode_run. grows_step. Qed.

Lemma grows_run_tool (w : Collaborators) (c : ToolCall) : grows (run_tool w c).
Proof.
  unfold run_tool.
  destruct (call_function c); try apply grows_activate_message_mode_run;
    intros s;
    destruct (run_memory_tool w _ (call_params c) (event_memory s) (session_events s)
                (core_memory s) (retrieval_memory s)) as [[[v rows] cm] rm];
    apply extends_set_tiers.
Qed.

#[local] Hint Resolve grows_activate_message_mode_run grows_run_tool : grows.

Lemma grows_handle_function_call (w : Collaborators) (c : ToolCall) :
  grows (handle_function_call w c).
Proof. unfold handle_function_call. grows_step. Qed.

#[local] Hint Resolve grows_handle_function_call : grows.

Lemma grows_get_chat_response (w : Collaborators) (sp : PromptFields) (n : nat) :
  grows (get_chat_response w sp n).
Proof.
  unfold get_chat_response. apply grows_bind; [eauto with grows|].
  intros out. destruct (parsed out); grows_step.
Qed.

#[local] Hint Resolve grows_get_chat_response : grows.

Lemma grows_generation_round (w : Collaborators) (q : list Event) :
  grows (generation_round w q).
Proof. unfold generation_round. grows_step. Qed.

#[local] Hint Resolve grows_generation_round : grows.

Lemma grows_heartbeat_loop (w : Collaborators) (q : list Event) (fuel : nat) :
  forall result, grows (heartbeat_loop w fuel q result).
Proof.
  induction fuel as [|fuel IH]; intros result; cbn [heartbeat_loop];
    [apply grows_out_of_fuel|].
  destruct result as [[|c t]|r]; [apply grows_raise|grows_step|].
  apply grows_bind.
  - destruct (negb _); eauto with grows.
  - intros _. destruct (request_heartbeat r) as [[]|]; grows_step.
Qed.

(** ** One generation round, by what the provider returns *)

Lemma run_tool_memory (w : Collaborators) (c : ToolCall) (s : Agent) :
  call_function c <> activate_message_mode ->
  exists v rows cm rm, run_tool w c s = Ret v (set_tiers rows cm rm s).
Proof.
  intros Hf. unfold run_tool.
  destruct (call_function c); [congruence| ..];
    destruct (run_memory_tool w _ (call_params c) (event_memory s) (session_events s)
                (core_memory s) (retrieval_memory s)) as [[[v rows] cm] rm]; eauto.
Qed.

Ltac run_round :=
  unfold generation_round, get_chat_response, generate, generate_prompt,
    handle_function_call, add_event_to_queue, bind, gets, modify, ret.

Lemma generation_round_memory_tool (w : Collaborators) (q : list Event) (s : Agent)
  (b : bool) :
  (forall req, exists c,
      parsed (llm w (generation_count (trace s)) req) = Some c /\
      dispatched_heartbeat c = Some b) ->
  exists r s' req c,
    generation_round w q s = Ret (RCall r) s' /\
    request_heartbeat r = Some b /\
    trace s' = trace s ++ [Generate req; Dispatch c] /\
    req_function_tool_registry req = true.
Proof.
  intros H. run_round.
  match goal with
  | |- context [llm w _ ?req] => destruct (H req) as (c & Hc & Hb); rewrite Hc
  end.
  destruct (dispatched_heartbeat_Some c b Hb) as [Hf _].
  match goal with
  | |- context [run_tool w c ?s0] =>
      destruct (run_tool_memory w c s0 Hf) as (v & rows & cm & rm & E); rewrite E
  end.
  eexists _, _, _, c. split; [reflexivity|]. cbn. split; [exact Hb|]. split.
  - now rewrite <- app_assoc.
  - reflexivity.
Qed.

Lemma generation_round_text (w : Collaborators) (q : list Event) (s : Agent)
  (text : string) :
  (forall req, llm w (generation_count (trace s)) req = text_output text) ->
  exists s' req,
    generation_round w q s = Ret (RText text) s' /\
    event_memory s' = event_memory s ++ [mkEvent AgentMessage text] /\
    trace s' = trace s ++ [Generate req].
Proof.
  intros Hc. run_round. rewrite Hc. cbn.
  eexists _, _. split; [reflexivity|]. cbn. split; reflexivity.
Qed.

Lemma generation_round_activate_message_mode (w : Collaborators) (q : list Event)
  (s : Agent) (c : ToolCall) :
  (forall req, parsed (llm w (generation_count (trace s)) req) = Some c) ->
  call_function c = activate_message_mode ->
  exists s' req req' call_text prose,
    generation_round w q s
    = Ret (RCall {| function := "activate_message_mode";
                    return_value := "Message mode activated.";
                    request_heartbeat := None |}) s' /\
    trace s'
    = trace s ++ [ Generate req; Dispatch c; Generate req';
                   if send_message_to_user_callback s then Callback prose else Print prose ] /\
    event_memory s'
    = event_memory s ++ [ mkEvent AgentMessage call_text;
                          mkEvent FunctionMessage "Message mode activated.";
                          mkEvent AgentMessage prose ] /\
    call_text = raw (llm w (generation_count (trace s)) req) /\
    prose = raw (llm w (generation_count (trace s) + 1) req') /\
    req_function_tool_registry req = true /\
    req_function_tool_registry req' = false.
Proof.
  intros Hc Hf. run_round. rewrite Hc.
  unfold run_tool, dispatched_heartbeat. rewrite Hf.
  unfold activate_message_mode_run, get_chat_response_text, generate, generate_prompt,
    build_event_memory_context, session_query_all, send_message_to_user,
    add_event_to_queue, bind, gets, modify, ret.
  cbn -[generation_count].
  rewrite !generation_count_app.
  change (generation_count [Dispatch c]) with 0.
  change (generation_count [Generate ?r]) with 1.
  rewrite Nat.add_0_r.
  destruct (send_message_to_user_callback s); cbn -[generation_count].
  all: eexists _, _, _, _, _; split; [reflexivity|].
  all: repeat split; cbn -[generation_count]; rewrite <- ?app_assoc; reflexivity.
Qed.

(** ** One iteration of the loop *)

Lemma heartbeat_loop_continue (w : Collaborators) (q : list Event) (fuel : nat)
  (r : CallResult) (s : Agent) :
  request_heartbeat r = Some true ->
  exists s1,
    trace s1 = trace s /\
    heartbeat_loop w (S fuel) q (RCall r) s
    = bind (generation_round w q) (heartbeat_loop w fuel q) s1.
Proof.
  intros Hb. cbn [heartbeat_loop]. rewrite Hb.
  unfold build_event_memory_context, add_event_to_queue.
  destruct (negb (String.eqb (function r) "activate_message_mode"));
    eexists; (split; [|unfold bind at 1 2 3; cbn; reflexivity]); reflexivity.
Qed.

Lemma heartbeat_loop_break (w : Collaborators) (q : list Event) (fuel : nat)
  (r : CallResult) (s : Agent) :
  request_heartbeat r <> Some true ->
  exists s1,
    trace s1 = trace s /\
    heartbeat_loop w (S fuel) q (RCall r) s = Ret (RCall r) s1.
Proof.
  intros Hb. cbn [heartbeat_loop]. unfold add_event_to_queue.
  destruct (negb (String.eqb (function r) "activate_message_mode"));
    destruct (request_heartbeat r) as [[]|]; try congruence;
    eexists; (split; [|unfold bind; cbn; reflexivity]); reflexivity.
Qed.

Lemma heartbeat_loop_chain (w : Collaborators) (q : list Event) :
  forall (k : nat) (s : Agent) (r : CallResult) (fuel : nat),
    k < fuel ->
    request_heartbeat r = Some (negb (Nat.eqb k 0)) ->
    (forall i req, i < k -> exists c,
        parsed (llm w (generation_count (trace s) + i) req) = Some c /\
        dispatched_heartbeat c = Some (negb (Nat.eqb (S i) k))) ->
    exists r' s',
      heartbeat_loop w fuel q (RCall r) s = Ret r' s' /\
      generation_rounds (trace s') = generation_rounds (trace s) + k /\
      generation_count (trace s') = generation_count (trace s) + k.
Proof.
  induction k as [|k IH]; intros s r fuel Hfuel Hb Hout.
  - destruct fuel as [|fuel]; [lia|].
    destruct (heartbeat_loop_break w q fuel r s) as (s1 & Ht & E).
    { rewrite Hb. discriminate. }
    exists (RCall r), s1. rewrite E, Ht. repeat split; lia.
  - destruct fuel as [|fuel]; [lia|].
    destruct (heartbeat_loop_continue w q fuel r s Hb) as (s1 & Ht & E).
    rewrite E. clear E.
    destruct (generation_round_memory_tool w q s1 (negb (Nat.eqb k 0)))
      as (r1 & s2 & req & c & Eround & Hb1 & Ht2 & Hreg).
    { intros req. rewrite Ht.
      destruct (Hout 0 req ltac:(lia)) as (c & Hc & Hd).
      exists c. rewrite Nat.add_0_r in Hc. split; [exact Hc|].
      change (Nat.eqb 1 (S k)) with (Nat.eqb 0 k) in Hd.
      now rewrite Nat.eqb_sym. }
    unfold bind. rewrite Eround.
    destruct (IH s2 r1 fuel ltac:(lia) Hb1) as (r' & s' & Eloop & Hr & Hg).
    { intros i req' Hi. rewrite Ht2, Ht, generation_count_app.
      change (generation_count [Generate req; Dispatch c]) with 1.
      destruct (Hout (S i) req' ltac:(lia)) as (c' & Hc' & Hd').
      exists c'. split.
      - rewrite <- Hc'. do 2 f_equal. lia.
      - exact Hd'. }
    exists r', s'. split; [exact Eloop|].
    rewrite Hr, Hg, Ht2, Ht, generation_count_app, generation_rounds_app.
    unfold generation_rounds at 2, generation_count at 2. cbn. rewrite Hreg. cbn.
    split; lia.
Qed.

(** ** A whole turn *)

Lemma get_response_unfold (w : Collaborators) (fuel : nat) (message : string) (s : Agent) :
  get_response w fuel message s
  = bind (generation_round w (session_events (turn_start message s)))
      (fun result =>
         bind (heartbeat_loop w fuel (session_events (turn_start message s)) result)
              (fun _ => ret tt))
      (turn_start message s).
Proof. reflexivity. Qed.

(** C1: when the first [N-1] results of the provider are structured calls
    whose result asks for a heartbeat and the [N]-th is a structured call
    whose result does not, [get_response] returns to its caller after exactly
    [N] generations, all of them rounds of the controller. *)
Theorem C1_heartbeat_chain_rounds :
  forall (w : Collaborators) (s : Agent) (message : string) (N fuel : nat),
    1 <= N -> N <= fuel ->
    (forall i req, i < N - 1 -> exists c,
        parsed (llm w (generation_count (trace s) + i) req) = Some c /\
        dispatched_heartbeat c = Some true) ->
    (forall req, exists c,
        parsed (llm w (generation_count (trace s) + (N - 1)) req) = Some c /\
        dispatched_heartbeat c = Some false) ->
    exists s',
      get_response w fuel message s = Ret tt s' /\
      generation_rounds (trace s') = generation_rounds (trace s) + N /\
      generation_count (trace s') = generation_count (trace s) + N.
Proof.
  intros w s message N fuel HN Hfuel Htrue Hfalse.
  assert (Hall : forall i req, i < N -> exists c,
             parsed (llm w (generation_count (trace s) + i) req) = Some c /\
             dispatched_heartbeat c = Some (negb (Nat.eqb (S i) N))).
  { intros i req Hi. destruct (Nat.eqb (S i) N) eqn:E.
    - apply Nat.eqb_eq in E. replace i with (N - 1) by lia. apply Hfalse.
    - apply Nat.eqb_neq in E. apply Htrue. lia. }
  rewrite get_response_unfold.
  set (s0 := turn_start message s). set (q := session_events s0).
  assert (Ht0 : trace s0 = trace s) by reflexivity.
  destruct (generation_round_memory_tool w q s0 (negb (Nat.eqb (N - 1) 0)))
    as (r1 & s1 & req & c & Eround & Hb1 & Ht1 & Hreg).
  { intros req. rewrite Ht0. destruct (Hall 0 req ltac:(lia)) as (c & Hc & Hd).
    exists c. rewrite Nat.add_0_r in Hc. split; [exact Hc|]. rewrite Hd.
    do 2 f_equal. destruct N as [|[|N]]; [lia|reflexivity|reflexivity]. }
  unfold bind at 1. rewrite Eround.
  destruct (heartbeat_loop_chain w q (N - 1) s1 r1 fuel ltac:(lia) Hb1)
    as (r' & s' & Eloop & Hr & Hg).
  { intros i req' Hi. rewrite Ht1, Ht0, generation_count_app.
    change (generation_count [Generate req; Dispatch c]) with 1.
    destruct (Hall (S i) req' ltac:(lia)) as (c' & Hc' & Hd').
    exists c'. split.
    - rewrite <- Hc'. do 2 f_equal. lia.
    - rewrite Hd'. do 2 f_equal. destruct N as [|N]; [lia|].
      cbn. now rewrite Nat.sub_0_r. }
  unfold bind. rewrite Eloop. exists s'. split; [reflexivity|].
  rewrite Hr, Hg, Ht1, Ht0, generation_count_app, generation_rounds_app.
  unfold generation_rounds at 2, generation_count at 2. cbn. rewrite Hreg. cbn.
  split; lia.
Qed.

Lemma C1_witness :
  exists s',
    get_response
      (scripted [call_output core_memory_append (Some true);
                 call_output archival_memory_insert (Some false)] (text_output ""))
      2 "Hello" fresh_agent = Ret tt s' /\
    generation_rounds (trace s') = generation_rounds (trace fresh_agent) + 2 /\
    generation_count (trace s') = generation_count (trace fresh_agent) + 2.
Proof.
  apply (C1_heartbeat_chain_rounds
           (scripted [call_output core_memory_append (Some true);
                      call_output archival_memory_insert (Some false)] (text_output ""))
           fresh_agent "Hello" 2 2); [lia | lia | |].
  - intros [|i] req Hi; [|simpl in Hi; lia].
    eexists. split; reflexivity.
  - intros req. eexists. split; reflexivity.
Defined.

(** ** A plain-text result *)

Lemma heartbeat_loop_text (w : Collaborators) (q : list Event) (c : ascii) (t : string) :
  forall (fuel : nat) (s : Agent),
    heartbeat_loop w fuel q (RText (String c t)) s
    = OutOfFuel
        (set_event_memory
           (event_memory s ++ repeat (mkEvent FunctionMessage (String c t)) (2 * fuel)) s).
Proof.
  induction fuel as [|fuel IH]; intros s.
  - cbn. rewrite app_nil_r. now destruct s.
  - cbn [heartbeat_loop]. unfold add_event_to_queue, bind, modify.
    rewrite IH. f_equal. cbn.
    replace (fuel + S (fuel + 0)) with (S (2 * fuel)) by lia.
    cbn. now rewrite <- !app_assoc.
Qed.

Lemma heartbeat_loop_text_trace (w : Collaborators) (q : list Event) (text : string)
  (fuel : nat) (s : Agent) :
  trace (state_of (heartbeat_loop w fuel q (RText text) s)) = trace s.
Proof.
  destruct text as [|c t].
  - destruct fuel; reflexivity.
  - now rewrite heartbeat_loop_text.
Qed.

(** C2 (amended): when the provider returns a non-empty plain text, the
    round appends an [AgentMessage] event with the raw output, the loop then
    appends a [FunctionMessage] event with the same text, and nothing is
    handed to [send_message_to_user]: the only effect is the generation. *)
Theorem C2_plain_text_recorded_not_forwarded :
  forall (w : Collaborators) (q : list Event) (s : Agent) (text : string),
    text <> "" ->
    (forall req, llm w (generation_count (trace s)) req = text_output text) ->
    exists s1 req,
      generation_round w q s = Ret (RText text) s1 /\
      event_memory s1 = event_memory s ++ [mkEvent AgentMessage text] /\
      trace s1 = trace s ++ [Generate req] /\
      forall fuel,
        let s2 := state_of (heartbeat_loop w (S fuel) q (RText text) s1) in
        (exists ev, event_memory s2
                    = event_memory s1 ++ mkEvent FunctionMessage text :: ev) /\
        trace s2 = trace s ++ [Generate req] /\
        sent_to_user (trace s2) = sent_to_user (trace s).
Proof.
  intros w q s text Hne Hout.
  destruct (generation_round_text w q s text Hout) as (s1 & req & E & Hev & Htr).
  exists s1, req. repeat (split; [assumption|]).
  intros fuel s2. subst s2.
  destruct text as [|c t]; [congruence|].
  rewrite heartbeat_loop_text. cbn [state_of]. split; [|split].
  - eexists. cbn. replace (fuel + S (fuel + 0)) with (S (2 * fuel)) by lia.
    cbn. reflexivity.
  - exact Htr.
  - cbn. rewrite Htr, sent_to_user_app. cbn. now rewrite app_nil_r.
Qed.

Lemma C2_witness :
  exists s1 req,
    generation_round (scripted [text_output "Hi"] (text_output "")) [] fresh_agent
    = Ret (RText "Hi") s1 /\
    event_memory s1 = event_memory fresh_agent ++ [mkEvent AgentMessage "Hi"] /\
    trace s1 = trace fresh_agent ++ [Generate req] /\
    forall fuel,
      let s2 := state_of (heartbeat_loop (scripted [text_output "Hi"] (text_output ""))
                            (S fuel) [] (RText "Hi") s1) in
      (exists ev, event_memory s2
                  = event_memory s1 ++ mkEvent FunctionMessage "Hi" :: ev) /\
      trace s2 = trace fresh_agent ++ [Generate req] /\
      sent_to_user (trace s2) = sent_to_user (trace fresh_agent).
Proof.
  apply (C2_plain_text_recorded_not_forwarded
           (scripted [text_output "Hi"] (text_output "")) [] fresh_agent "Hi").
  - discriminate.
  - intros req. reflexivity.
Defined.

(** C2 as stated fails: with a provider that answers "Hi" in plain text, the
    turn never returns to the caller, whatever the fuel, and nothing reaches
    [send_message_to_user]. *)
Lemma C2_counterexample :
  (forall fuel,
     returned (get_response (scripted [text_output "Hi"] (text_output ""))
                 fuel "Hello" fresh_agent) = false) /\
  (forall fuel,
     sent_to_user
       (trace (state_of (get_response (scripted [text_output "Hi"] (text_output ""))
                           fuel "Hello" fresh_agent))) = []).
Proof.
  assert (E : forall fuel, exists s',
             get_response (scripted [text_output "Hi"] (text_output ""))
               fuel "Hello" fresh_agent = OutOfFuel s' /\
             exists req, trace s' = [Generate req]).
  { intros fuel. rewrite get_response_unfold.
    destruct (generation_round_text (scripted [text_output "Hi"] (text_output ""))
                (session_events (turn_start "Hello" fresh_agent))
                (turn_start "Hello" fresh_agent) "Hi")
      as (s1 & req & E & _ & Htr); [intros req; reflexivity|].
    unfold bind. rewrite E, heartbeat_loop_text.
    eexists. split; [reflexivity|]. exists req. exact Htr. }
  split; intros fuel; destruct (E fuel) as (s' & -> & req & Htr); [reflexivity|].
  cbn [state_of]. now rewrite Htr.
Qed.

(** ** The [activate_message_mode] tool *)

(** C3: dispatching [activate_message_mode], with any parameters and any
    outer heartbeat field in the call, performs exactly one generation (the
    nested one, without tool registry), and the result it gives to the
    controller asks for no heartbeat: the loop returns at once, from any
    state, without another iteration. *)
Theorem C3_activate_message_mode_ends_chain :
  forall (w : Collaborators) (params : string) (hb : option bool) (s : Agent),
    exists r s' req prose,
      handle_function_call w (mkCall activate_message_mode params hb) s = Ret r s' /\
      trace s'
      = trace s ++ [ Dispatch (mkCall activate_message_mode params hb); Generate req;
                     if send_message_to_user_callback s
                     then Callback prose else Print prose ] /\
      req_function_tool_registry req = false /\
      generation_count (trace s') = generation_count (trace s) + 1 /\
      request_heartbeat r = None /\
      requests_heartbeat (RCall r) = false /\
      forall fuel q s'', heartbeat_loop w (S fuel) q (RCall r) s'' = Ret (RCall r) s''.
Proof.
  intros w params hb s.
  unfold handle_function_call, run_tool, dispatched_heartbeat.
  cbn [call_function add_outer_request_heartbeat_field].
  unfold activate_message_mode_run, get_chat_response_text, generate, generate_prompt,
    build_event_memory_context, session_query_all, send_message_to_user,
    add_event_to_queue, bind, gets, modify, ret.
  cbn -[generation_count].
  destruct (send_message_to_user_callback s); cbn -[generation_count].
  all: eexists _, _, _, _; split; [reflexivity|].
  all: cbn -[generation_count]; rewrite <- ?app_assoc.
  all: split; [reflexivity|]; split; [reflexivity|].
  all: split; [rewrite generation_count_app; reflexivity|].
  all: repeat split.
Qed.

(** C7: a round in which the model calls [activate_message_mode] leaves the
    prose of the nested generation in the event log, as the last
    [AgentMessage] event, after the events the tool appended itself, and
    hands it to the user: to the callback when one is set, to the console
    otherwise. *)
Theorem C7_message_mode_prose_recorded_and_forwarded :
  forall (w : Collaborators) (q : list Event) (s : Agent) (c : ToolCall),
    (forall req, parsed (llm w (generation_count (trace s)) req) = Some c) ->
    call_function c = activate_message_mode ->
    exists r s' req req' call_text prose,
      generation_round w q s = Ret (RCall r) s' /\
      prose = raw (llm w (generation_count (trace s) + 1) req') /\
      req_function_tool_registry req' = false /\
      event_memory s'
      = event_memory s ++ [ mkEvent AgentMessage call_text;
                            mkEvent FunctionMessage "Message mode activated.";
                            mkEvent AgentMessage prose ] /\
      trace s'
      = trace s ++ [ Generate req; Dispatch c; Generate req';
                     if send_message_to_user_callback s
                     then Callback prose else Print prose ] /\
      sent_to_user (trace s') = sent_to_user (trace s) ++ [prose].
Proof.
  intros w q s c Hc Hf.
  destruct (generation_round_activate_message_mode w q s c Hc Hf)
    as (s' & req & req' & call_text & prose & E & Htr & Hev & _ & Hp & _ & Hreg).
  eexists _, s', req, req', call_text, prose.
  split; [exact E|]. repeat (split; [assumption|]).
  rewrite Htr, sent_to_user_app. f_equal.
  now destruct (send_message_to_user_callback s).
Qed.

Lemma C7_witness :
  exists r s' req req' call_text prose,
    generation_round
      (scripted [call_output activate_message_mode None; text_output "You enter the inn."]
         (text_output "")) [] fresh_agent = Ret (RCall r) s' /\
    prose = raw (llm (scripted [call_output activate_message_mode None;
                                text_output "You enter the inn."] (text_output ""))
                   (generation_count (trace fresh_agent) + 1) req') /\
    req_function_tool_registry req' = false /\
    event_memory s'
    = event_memory fresh_agent ++ [ mkEvent AgentMessage call_text;
                                    mkEvent FunctionMessage "Message mode activated.";
                                    mkEvent AgentMessage prose ] /\
    trace s'
    = trace fresh_agent ++ [ Generate req;
                             Dispatch (mkCall activate_message_mode "{}" None);
                             Generate req';
                             if send_message_to_user_callback fresh_agent
                             then Callback prose else Print prose ] /\
    sent_to_user (trace s') = sent_to_user (trace fresh_agent) ++ [prose].
Proof.
  apply (C7_message_mode_prose_recorded_and_forwarded
           (scripted [call_output activate_message_mode None;
                      text_output "You enter the inn."] (text_output ""))
           [] fresh_agent (mkCall activate_message_mode "{}" None)).
  - intros req. reflexivity.
  - reflexivity.
Defined.

(** ** The first generation of a turn *)

(** C4: on an inbound message with an empty event log (no event queued, no
    row in the session) and an empty archival memory, [get_response] appends
    the [UserMessage] event, renders a system prompt that shows
    [imb_count = 0] and [ckv_count = 0] (the event just queued is in the
    message window, not among the rows counted), and invokes the provider
    exactly once before the first tool dispatch. *)
Theorem C4_first_prompt_on_empty_log :
  forall (w : Collaborators) (fuel : nat) (message : string) (s : Agent),
    event_memory s = [] ->
    session_events s = [] ->
    retrieval_memory s = [] ->
    exists req rest ev,
      trace (state_of (get_response w fuel message s)) = trace s ++ Generate req :: rest /\
      event_memory (state_of (get_response w fuel message s))
      = mkEvent UserMessage message :: ev /\
      imb_count (req_system_prompt req) = 0 /\
      ckv_count (req_system_prompt req) = 0 /\
      req_messages req = [mkMessage "user" (CStr message)] /\
      match parsed (llm w (generation_count (trace s)) req) with
      | Some c => exists rest', rest = Dispatch c :: rest'
      | None => rest = []
      end.
Proof.
  intros w fuel message s Hev Hses Hret.
  set (s0 := turn_start message s).
  set (q := session_events s0).
  set (req := {| req_system_prompt :=
                   {| documentation := get_documentation w;
                      last_modified := core_last_modified (core_memory s0);
                      iam_content := core_memory_context (core_memory s0);
                      ckv_count := length (retrieval_memory s0);
                      imb_count := length q |};
                 req_messages := messages s0;
                 req_role := None;
                 req_function_tool_registry := true;
                 req_n_predict := 1024;
                 req_formatter := messages_formatter s0 |}).
  set (out := llm w (generation_count (trace s)) req).
  set (s1 := log_effect (Generate req) (set_last_response (raw out) s0)).
  assert (Hreq : imb_count (req_system_prompt req) = 0 /\
                 ckv_count (req_system_prompt req) = 0 /\
                 req_messages req = [mkMessage "user" (CStr message)]).
  { subst req q s0. cbn. rewrite Hret, Hev, Hses. now cbn. }
  destruct Hreq as (Himb & Hckv & Hmsg).
  destruct (parsed out) as [c|] eqn:Hparsed.
  - (* a structured call: everything after the dispatch only grows the trace *)
    pose (K := (v <- run_tool w c ;;
                r <- ret (mkResult (tool_name (call_function c)) v
                            (dispatched_heartbeat c)) ;;
                result <- ret (RCall r) ;;
                lr <- gets last_response ;;
                add_event_to_queue AgentMessage lr ;;
                result' <- ret result ;;
                heartbeat_loop w fuel q result' ;;
                ret tt)%agent).
    assert (E : get_response w fuel message s = K (log_effect (Dispatch c) s1)).
    { rewrite get_response_unfold. fold s0. fold q.
      unfold generation_round, get_chat_response, generate_prompt, generate, bind at 1 2 3 4,
        gets at 1.
      fold req. change (trace s0) with (trace s). fold out. rewrite Hparsed.
      subst K. unfold handle_function_call, bind, modify, ret.
      now destruct (run_tool w c _). }
    assert (G : grows K).
    { subst K. pose proof (grows_heartbeat_loop w q fuel). grows_step. }
    destruct (G (log_effect (Dispatch c) s1)) as [[ev Hev'] [tr Htr]].
    rewrite <- E in Hev', Htr.
    exists req, (Dispatch c :: tr), ev.
    split; [rewrite Htr; cbn; now rewrite <- !app_assoc|].
    split; [rewrite Hev'; cbn; now rewrite Hev|].
    repeat (split; [assumption|]). fold out. rewrite Hparsed. now exists tr.
  - (* plain text: the loop has no effect on the trace *)
    assert (E : get_response w fuel message s
                = bind (heartbeat_loop w fuel q (RText (raw out))) (fun _ => ret tt)
                    (set_event_memory
                       (event_memory s1 ++ [mkEvent AgentMessage (raw out)]) s1)).
    { rewrite get_response_unfold. fold s0. fold q.
      unfold generation_round, get_chat_response, generate_prompt, generate, bind at 1 2 3 4,
        gets at 1.
      fold req. change (trace s0) with (trace s). fold out. rewrite Hparsed.
      reflexivity. }
    pose proof (heartbeat_loop_text_trace w q (raw out) fuel
                  (set_event_memory
                     (event_memory s1 ++ [mkEvent AgentMessage (raw out)]) s1)) as Htr.
    pose proof (grows_heartbeat_loop w q fuel (RText (raw out))
                  (set_event_memory
                     (event_memory s1 ++ [mkEvent AgentMessage (raw out)]) s1))
      as [[ev Hev'] _].
    assert (Hst : state_of (get_response w fuel message s)
                  = state_of (heartbeat_loop w fuel q (RText (raw out))
                      (set_event_memory
                         (event_memory s1 ++ [mkEvent AgentMessage (raw out)]) s1))).
    { rewrite E. unfold bind.
      now destruct (heartbeat_loop w fuel q (RText (raw out)) _). }
    rewrite Hst, Htr, Hev'.
    exists req, [], (mkEvent AgentMessage (raw out) :: ev).
    split; [reflexivity|]. split; [cbn; now rewrite Hev|].
    repeat (split; [assumption|]). fold out. now rewrite Hparsed.
Qed.

Lemma C4_witness :
  event_memory fresh_agent = [] /\ session_events fresh_agent = [] /\
  retrieval_memory fresh_agent = [] /\
  exists req rest ev,
    trace (state_of (get_response (scripted [call_output activate_message_mode None]
                                     (text_output "Welcome.")) 1 "Hello" fresh_agent))
    = trace fresh_agent ++ Generate req :: rest /\
    event_memory (state_of (get_response (scripted [call_output activate_message_mode None]
                                            (text_output "Welcome.")) 1 "Hello" fresh_agent))
    = mkEvent UserMessage "Hello" :: ev /\
    imb_count (req_system_prompt req) = 0 /\
    ckv_count (req_system_prompt req) = 0 /\
    req_messages req = [mkMessage "user" (CStr "Hello")] /\
    match parsed (llm (scripted [call_output activate_message_mode None]
                         (text_output "Welcome."))
                    (generation_count (trace fresh_agent)) req) with
    | Some c => exists rest', rest = Dispatch c :: rest'
    | None => rest = []
    end.
Proof.
  split; [reflexivity|]. split; [reflexivity|]. split; [reflexivity|].
  apply (C4_first_prompt_on_empty_log
           (scripted [call_output activate_message_mode None] (text_output "Welcome."))
           1 "Hello" fresh_agent); reflexivity.
Defined.

(** ** No bound on the number of rounds *)

Lemma always_heartbeat_round (q : list Event) (s : Agent) :
  exists r s' req c,
    generation_round always_heartbeat q s = Ret (RCall r) s' /\
    request_heartbeat r = Some true /\
    trace s' = trace s ++ [Generate req; Dispatch c] /\
    req_function_tool_registry req = true.
Proof.
  apply generation_round_memory_tool. intros req.
  exists (mkCall core_memory_append "{}" (Some true)). split; [|reflexivity].
  unfold always_heartbeat, scripted. cbn. now destruct (generation_count (trace s)).
Qed.

Lemma always_heartbeat_loop (q : list Event) :
  forall (fuel : nat) (s : Agent) (r : CallResult),
    request_heartbeat r = Some true ->
    exists s',
      heartbeat_loop always_heartbeat fuel q (RCall r) s = OutOfFuel s' /\
      generation_rounds (trace s') = generation_rounds (trace s) + fuel.
Proof.
  induction fuel as [|fuel IH]; intros s r Hb.
  - exists s. split; [reflexivity | lia].
  - destruct (heartbeat_loop_continue always_heartbeat q fuel r s Hb) as (s1 & Ht & E).
    rewrite E. clear E.
    destruct (always_heartbeat_round q s1) as (r1 & s2 & req & c & E & Hb1 & Ht2 & Hreg).
    unfold bind. rewrite E.
    destruct (IH s2 r1 Hb1) as (s' & Eloop & Hr).
    exists s'. split; [exact Eloop|].
    rewrite Hr, Ht2, Ht, generation_rounds_app.
    unfold generation_rounds at 2. cbn. rewrite Hreg. cbn. lia.
Qed.

Lemma heartbeat_loop_returns_without_heartbeat (w : Collaborators) (q : list Event) :
  forall (fuel : nat) (result : Result) (s : Agent),
    match heartbeat_loop w fuel q result s with
    | Ret result' _ => requests_heartbeat result' = false
    | _ => True
    end.
Proof.
  induction fuel as [|fuel IH]; intros result s; [exact I|].
  destruct result as [[|c t]|r]; [exact I | now rewrite heartbeat_loop_text |].
  destruct (request_heartbeat r) as [[]|] eqn:Hb.
  - destruct (heartbeat_loop_continue w q fuel r s Hb) as (s1 & _ & E).
    rewrite E. unfold bind.
    destruct (generation_round w q s1) as [r1 s2|e s2|s2]; [apply IH | exact I | exact I].
  - destruct (heartbeat_loop_break w q fuel r s) as (s1 & _ & E); [congruence|].
    rewrite E. cbn. now rewrite Hb.
  - destruct (heartbeat_loop_break w q fuel r s) as (s1 & _ & E); [congruence|].
    rewrite E. cbn. now rewrite Hb.
Qed.

(** C8: the heartbeat loop has no step cap.  For every bound [N] there is a
    provider, all of whose results are structured calls asking for a
    heartbeat, under which [get_response] never returns and performs more
    than [N] generation rounds; and whenever the loop does return, the last
    result asked for no heartbeat. *)
Theorem C8_no_step_cap :
  forall (N : nat) (s : Agent) (message : string),
    (exists w,
        (forall i req, exists c,
            parsed (llm w i req) = Some c /\ dispatched_heartbeat c = Some true) /\
        (forall fuel, returned (get_response w fuel message s) = false) /\
        (exists fuel,
            generation_rounds (trace (state_of (get_response w fuel message s)))
            > generation_rounds (trace s) + N)) /\
    (forall w fuel q result s0,
        match heartbeat_loop w fuel q result s0 with
        | Ret result' _ => requests_heartbeat result' = false
        | _ => True
        end).
Proof.
  intros N s message. split; [|intros w fuel q; apply heartbeat_loop_returns_without_heartbeat].
  exists always_heartbeat.
  assert (E : forall fuel, exists s',
             get_response always_heartbeat fuel message s = OutOfFuel s' /\
             generation_rounds (trace s') = generation_rounds (trace s) + 1 + fuel).
  { intros fuel. rewrite get_response_unfold.
    destruct (always_heartbeat_round (session_events (turn_start message s))
                (turn_start message s)) as (r1 & s1 & req & c & E & Hb1 & Ht1 & Hreg).
    unfold bind at 1. rewrite E.
    destruct (always_heartbeat_loop (session_events (turn_start message s)) fuel s1 r1 Hb1)
      as (s' & Eloop & Hr).
    unfold bind. rewrite Eloop. exists s'. split; [reflexivity|].
    rewrite Hr, Ht1, generation_rounds_app.
    change (trace (turn_start message s)) with (trace s).
    unfold generation_rounds at 2. cbn. rewrite Hreg. cbn. lia. }
  split; [|split].
  - intros i req. exists (mkCall core_memory_append "{}" (Some true)).
    split; [|reflexivity]. cbn. now destruct i.
  - intros fuel. destruct (E fuel) as (s' & -> & _). reflexivity.
  - exists N. destruct (E N) as (s' & -> & Hr). cbn [state_of]. lia.
Qed.

(** * Part V: further properties of the embedded code *)

(** ** The constructor's validation, completely *)

(** X1: the validation of [__init__] lets a pairing through exactly when the
    provider is not a [Llama] instance and the settings (the default when
    none are given) are the provider's own or [OpenAIGenerationSettings]; so
    [OpenAIGenerationSettings] pass with a [LlamaLLMSettings] or a
    [LlamaCppEndpointSettings] provider as well.  The settings stored are the
    given ones, or the default of the provider. *)
Theorem X1_validation_acceptance :
  forall (p : LlmProvider) (g : option GenerationSettings),
    accepted p g
    = negb (is_Llama p)
      && (compatible p g || is_OpenAIGenerationSettings (default_generation_settings p g))
    /\ (accepted p g = true ->
        validate_settings p g = inr (default_generation_settings p g))
    /\ accepted LlamaLLMSettings (Some OpenAIGenerationSettings) = true
    /\ accepted LlamaCppEndpointSettings (Some OpenAIGenerationSettings) = true.
Proof.
  intros p g. repeat split; try reflexivity.
  - destruct p, g as [[]|]; reflexivity.
  - destruct p, g as [[]|]; cbn; intros H; try discriminate H; reflexivity.
Qed.

Lemma X1_witness :
  accepted OpenAIEndpointSettings None = true /\
  validate_settings OpenAIEndpointSettings None
  = inr (default_generation_settings OpenAIEndpointSettings None).
Proof.
  split; [reflexivity|].
  apply (X1_validation_acceptance OpenAIEndpointSettings None). reflexivity.
Defined.

(** ** Loading a formatter from the arguments of its constructor *)

Lemma as_str_list_items_map (l : list string) :
  as_str_list_items (map JStr l) = Some l.
Proof. induction l as [|x l IH]; cbn; [reflexivity | now rewrite IH]. Qed.

(** X2: without the key [USE_FUNCTION_CALL_END], the dictionary of a
    formatter loads: [load_from_dict] gives the formatter back with
    [USE_FUNCTION_CALL_END] reset to [False] (line 63), whatever it was. *)
Theorem X2_load_from_dict_without_flag :
  forall self : MessagesFormatter,
    load_from_dict (dict_remove "USE_FUNCTION_CALL_END" (as_dict self))
    = inr (with_USE_FUNCTION_CALL_END false self).
Proof.
  intros self. unfold load_from_dict, init_kwargs, as_dict.
  cbn [dict_remove String.eqb Ascii.eqb Bool.eqb].
  cbn -[as_str_list_items].
  now rewrite as_str_list_items_map.
Qed.

(** ** [format_messages]: more on the loop *)

Lemma string_append_assoc (a b c : string) : (a +:+ b) +:+ c = a +:+ (b +:+ c).
Proof.
  induction a as [|x a IH]; [reflexivity|].
  change (String x ((a +:+ b) +:+ c) = String x (a +:+ b +:+ c)). now f_equal.
Qed.

Lemma string_append_nil_r (a : string) : a +:+ "" = a.
Proof.
  induction a as [|x a IH]; [reflexivity|].
  change (String x (a +:+ "") = String x a). now f_equal.
Qed.

Ltac step_cases H :=
  unfold format_step, concat_content in H;
  repeat match type of H with
         | context [match ?x with _ => _ end] => destruct x eqn:?; try discriminate H
         end;
  injection H as <-.

(** What one iteration leaves of the heap: the heap, or the heap with the
    content of the entry replaced. *)
Lemma format_step_heap j f st a st' :
  format_step j f st a = inr st' ->
  heap st' = heap st \/
  exists m c, heap st !! a = Some m /\ heap st' = <[a := mkMessage (role m) c]> (heap st).
Proof.
  intros H. step_cases H; cbn; eauto.
Qed.

Lemma format_step_roles j f st a st' :
  format_step j f st a = inr st' ->
  forall b, role <$> heap st' !! b = role <$> heap st !! b.
Proof.
  intros H b. destruct (format_step_heap j f st a st' H) as [->|(m & c & Hm & ->)];
    [reflexivity|].
  destruct (decide (a = b)) as [->|Hne].
  - rewrite list_lookup_insert_eq by (eapply lookup_lt_Some; exact Hm).
    now rewrite Hm.
  - now rewrite list_lookup_insert_ne.
Qed.

Lemma format_step_last_role j f st a m st' :
  heap st !! a = Some m ->
  format_step j f st a = inr st' ->
  known_role (last_role st) = true ->
  known_role (last_role st') = true /\
  String.eqb (last_role st') "assistant"
  = if known_role (role m) then String.eqb (role m) "assistant"
    else String.eqb (last_role st) "assistant".
Proof.
  intros Hm H Hk. unfold format_step, concat_content, known_role in *. rewrite Hm in H.
  destruct (String.eqb (role m) "system") eqn:Es.
  { apply String.eqb_eq in Es. rewrite Es.
    repeat match type of H with
           | context [match ?x with _ => _ end] => destruct x eqn:?; try discriminate H
           end; injection H as <-; cbn; auto. }
  destruct (String.eqb (role m) "user") eqn:Eu.
  { apply String.eqb_eq in Eu. rewrite Eu.
    repeat match type of H with
           | context [match ?x with _ => _ end] => destruct x eqn:?; try discriminate H
           end; injection H as <-; cbn; auto. }
  destruct (String.eqb (role m) "assistant") eqn:Ea.
  { repeat match type of H with
           | context [match ?x with _ => _ end] => destruct x eqn:?; try discriminate H
           end; injection H as <-; cbn; auto. }
  destruct (String.eqb (role m) "function") eqn:Ef.
  { repeat match type of H with
           | context [match ?x with _ => _ end] => destruct x eqn:?; try discriminate H
           end; injection H as <-; cbn; auto. }
  injection H as <-. cbn. auto.
Qed.

Lemma format_step_appends j f st a st' :
  INCLUDE_SYS_PROMPT_IN_FIRST_USER_MESSAGE f = false ->
  format_step j f st a = inr st' ->
  exists piece, formatted_messages st' = formatted_messages st +:+ piece.
Proof.
  intros Hi H. unfold format_step, concat_content in H. rewrite Hi in H.
  repeat match type of H with
         | context [match ?x with _ => _ end] => destruct x eqn:?; try discriminate H
         end;
    injection H as <-; cbn; eauto.
  exists "". now rewrite string_append_nil_r.
Qed.

(** Entries with another role do not count. *)
Lemma format_loop_known j f (h : Heap) (messages : list nat) :
  forall st,
    (forall b, role <$> heap st !! b = role <$> h !! b) ->
    format_loop j f messages st
    = format_loop j f (List.filter (known_reference h) messages) st.
Proof.
  induction messages as [|a rest IH]; intros st Hr; [reflexivity|].
  cbn [List.filter]. unfold known_reference at 1.
  specialize (Hr a) as Ha.
  destruct (h !! a) as [m|] eqn:Hm.
  - destruct (heap st !! a) as [m'|] eqn:Hm'; [|discriminate Ha].
    injection Ha as Hrole.
    destruct (known_role (role m)) eqn:Hk.
    + cbn [format_loop].
      destruct (format_step j f st a) as [e|st'] eqn:E; [reflexivity|].
      apply IH. intros b. rewrite (format_step_roles j f st a st' E). apply Hr.
    + cbn [format_loop].
      rewrite (format_step_unknown j f st a m' Hm') by now rewrite Hrole.
      now apply IH.
  - cbn [format_loop].
    destruct (format_step j f st a) as [e|st'] eqn:E; [reflexivity|].
    apply IH. intros b. rewrite (format_step_roles j f st a st' E). apply Hr.
Qed.

(** X4: the entries whose role is none of the four can be taken out of the
    list: [format_messages] returns (or raises) the same, and leaves the
    same heap, on the list without them. *)
Theorem X4_unknown_roles_can_be_dropped :
  forall (json_dumps : JsonDumps) (self : MessagesFormatter) (h : Heap)
         (messages : list nat),
    format_messages json_dumps self h messages
    = format_messages json_dumps self h (List.filter (known_reference h) messages).
Proof.
  intros j f h messages. unfold format_messages.
  now rewrite (format_loop_known j f h messages).
Qed.

(** Without the system prompt moved into the first user message, the loop
    only appends. *)
Lemma format_loop_appends j f (messages : list nat) :
  INCLUDE_SYS_PROMPT_IN_FIRST_USER_MESSAGE f = false ->
  forall st st',
    format_loop j f messages st = inr st' ->
    exists suffix, formatted_messages st' = formatted_messages st +:+ suffix.
Proof.
  intros Hi. induction messages as [|a rest IH]; intros st st' H.
  - injection H as <-. exists "". now rewrite string_append_nil_r.
  - cbn [format_loop] in H.
    destruct (format_step j f st a) as [e|st1] eqn:E; [discriminate H|].
    destruct (format_step_appends j f st a st1 Hi E) as (piece & Hp).
    destruct (IH st1 st' H) as (suffix & Hs).
    exists (piece +:+ suffix). now rewrite Hs, Hp, string_append_assoc.
Qed.

(** X5: unless [INCLUDE_SYS_PROMPT_IN_FIRST_USER_MESSAGE] is set, the loop
    only appends: the string a call returns begins with [PRE_PROMPT]. *)
Theorem X5_output_begins_with_pre_prompt :
  forall (json_dumps : JsonDumps) (self : MessagesFormatter) (h h' : Heap)
         (messages : list nat) (text next_role : string),
    INCLUDE_SYS_PROMPT_IN_FIRST_USER_MESSAGE self = false ->
    format_messages json_dumps self h messages = (h', inr (text, next_role)) ->
    exists suffix, text = PRE_PROMPT self +:+ suffix.
Proof.
  intros j f h h' messages text next_role Hi H. unfold format_messages in H.
  destruct (format_loop j f messages _) as [[e h0]|st'] eqn:E; [discriminate H|].
  destruct (format_loop_appends j f messages Hi _ _ E) as (suffix & Hs).
  cbn [formatted_messages] in Hs.
  injection H as _ Hret. unfold format_return in Hret. rewrite Hs in Hret.
  repeat match type of Hret with
         | context [if ?x then _ else _] => destruct x
         end;
    injection Hret as <- _; eexists; apply string_append_assoc.
Qed.

Lemma X5_witness :
  exists suffix,
    "<s>[USER]Hi[/USER][BOT]" = PRE_PROMPT bos_formatter +:+ suffix.
Proof.
  apply (X5_output_begins_with_pre_prompt shape_dumps bos_formatter
           [mkMessage "user" (CStr "Hi")] [mkMessage "user" (CStr "Hi")] [0]
           "<s>[USER]Hi[/USER][BOT]" "assistant").
  - reflexivity.
  - reflexivity.
Defined.

(** The role of the last entry the loop has a branch for. *)
Lemma referenced_roles_insert j f (h : Heap) (a : nat) (m : Message) (l : list nat) :
  h !! a = Some m ->
  referenced_roles (<[a := in_place_effect j f m]> h) l = referenced_roles h l.
Proof.
  intros Hm. unfold referenced_roles. induction l as [|b l IH]; [reflexivity|].
  cbn [omap list_omap]. rewrite IH. f_equal.
  destruct (decide (a = b)) as [->|Hne].
  - rewrite list_lookup_insert_eq by (eapply lookup_lt_Some; exact Hm).
    rewrite Hm. cbn. now rewrite in_place_effect_role.
  - now rewrite list_lookup_insert_ne.
Qed.

Lemma format_loop_last_role j f (messages : list nat) :
  forall st,
    forallb (typed_reference (heap st)) messages = true ->
    known_role (last_role st) = true ->
    exists st',
      format_loop j f messages st = inr st' /\
      known_role (last_role st') = true /\
      String.eqb (last_role st') "assistant"
      = fold_left (fun acc r => if known_role r then String.eqb r "assistant" else acc)
          (referenced_roles (heap st) messages) (String.eqb (last_role st) "assistant").
Proof.
  induction messages as [|a rest IH]; intros st Hall Hk.
  - exists st. repeat split; assumption || reflexivity.
  - cbn [forallb] in Hall. apply andb_true_iff in Hall as [H0 Hrest].
    unfold typed_reference in H0.
    destruct (heap st !! a) as [m|] eqn:Hm; [|discriminate H0].
    destruct (format_step_typed j f st a m Hm H0) as (st1 & Hstep & Hheap).
    destruct (format_step_last_role j f st a m st1 Hm Hstep Hk) as [Hk1 Hl1].
    destruct (IH st1) as (st' & Hloop & Hk' & Hl'); [|exact Hk1|].
    { rewrite Hheap. apply forallb_forall. intros b Hb.
      apply typed_reference_insert; [exact Hm | exact H0 |].
      rewrite forallb_forall in Hrest. now apply Hrest. }
    exists st'. split; [cbn [format_loop]; now rewrite Hstep|]. split; [exact Hk'|].
    rewrite Hl', Hheap, referenced_roles_insert by exact Hm.
    unfold referenced_roles at 2. cbn [omap list_omap]. rewrite Hm. cbn [fmap option_fmap option_map].
    cbn [fold_left]. now rewrite Hl1.
Qed.

(** X6: the role [format_messages] returns for the next turn.  With
    [USE_FUNCTION_CALL_END] set it is the assistant's; otherwise it is the
    user's exactly when the last entry with one of the four roles is an
    assistant entry or there is no such entry. *)
Theorem X6_next_role :
  forall (json_dumps : JsonDumps) (self : MessagesFormatter) (h : Heap)
         (messages : list nat),
    forallb (typed_reference h) messages = true ->
    exists (text : string) (h' : Heap),
      format_messages json_dumps self h messages
      = (h', inr (text,
                  if USE_FUNCTION_CALL_END self then "assistant"
                  else if ends_with_assistant (referenced_roles h messages)
                       then "user" else "assistant")).
Proof.
  intros j f h messages Hall.
  destruct (format_loop_last_role j f messages (mkLoop (PRE_PROMPT f) "assistant" false h)
              Hall eq_refl) as (st' & Hloop & Hk & Hl).
  cbn [heap last_role] in Hl. change (String.eqb "assistant" "assistant") with true in Hl.
  fold (ends_with_assistant (referenced_roles h messages)) in Hl.
  unfold format_messages. rewrite Hloop.
  unfold format_return.
  destruct (USE_FUNCTION_CALL_END f).
  { destruct (STRIP_PROMPT f); eexists _, _; reflexivity. }
  rewrite <- Hl. unfold known_role in Hk.
  destruct (String.eqb (last_role st') "assistant") eqn:Ea.
  - apply String.eqb_eq in Ea. rewrite Ea. cbn.
    destruct (STRIP_PROMPT f); eexists _, _; reflexivity.
  - rewrite orb_false_r in Hk.
    assert (Hs : String.eqb (last_role st') "system" || String.eqb (last_role st') "user"
                 || String.eqb (last_role st') "function" = true).
    { destruct (String.eqb (last_role st') "system"),
        (String.eqb (last_role st') "user"),
        (String.eqb (last_role st') "function"); auto. }
    rewrite Hs. destruct (STRIP_PROMPT f); eexists _, _; reflexivity.
Qed.

Lemma X6_witness :
  exists (text : string) (h' : Heap),
    format_messages shape_dumps custom_chat_ml_formatter example_heap example_messages
    = (h', inr (text,
                if USE_FUNCTION_CALL_END custom_chat_ml_formatter then "assistant"
                else if ends_with_assistant (referenced_roles example_heap example_messages)
                     then "user" else "assistant")).
Proof.
  apply (X6_next_role shape_dumps custom_chat_ml_formatter example_heap example_messages).
  reflexivity.
Defined.

(** Two runs side by side: one on the entries, one on the entries as a first
    call left them. *)
Lemma format_step_on_effect j f st st2 a m st' st2' :
  heap st !! a = Some m ->
  typed_content m = true ->
  heap st2 !! a = Some (in_place_effect j f m) ->
  formatted_messages st2 = formatted_messages st ->
  last_role st2 = last_role st ->
  no_user_prompt_start st2 = no_user_prompt_start st ->
  format_step j f st a = inr st' ->
  format_step j f st2 a = inr st2' ->
  formatted_messages st2' = formatted_messages st' /\
  last_role st2' = last_role st' /\
  no_user_prompt_start st2' = no_user_prompt_start st'.
Proof.
  intros Hm Ht Hm2 Hf Hl Hn H H2.
  unfold format_step, in_place_effect in *. rewrite Hm in H. rewrite Hm2 in H2.
  unfold typed_content in Ht.
  destruct m as [r c]; cbn [role content] in *.
  destruct (String.eqb r "system") eqn:Es.
  { destruct c as [s|items]; [|discriminate Ht].
    apply String.eqb_eq in Es. subst r. cbn in H, H2. rewrite Hf, Hn in H2.
    destruct (INCLUDE_SYS_PROMPT_IN_FIRST_USER_MESSAGE f);
      injection H as <-; injection H2 as <-; cbn; auto. }
  destruct (String.eqb r "user") eqn:Eu.
  { destruct c as [s|items]; [|discriminate Ht].
    apply String.eqb_eq in Eu. subst r. cbn in H, H2. rewrite Hf, Hn in H2.
    destruct (no_user_prompt_start st);
      injection H as <-; injection H2 as <-; cbn; auto. }
  destruct (String.eqb r "assistant") eqn:Ea.
  { destruct c as [s|items]; [|discriminate Ht].
    destruct (STRIP_PROMPT f) eqn:Estrip; cbn [role content] in H2;
      rewrite Es, Eu, Ea in H2; cbn [content role] in H2;
      rewrite ?strip_idempotent, Hf, Hn in H2; rewrite ?strip_idempotent in H;
      injection H as <-; injection H2 as <-; cbn; auto. }
  destruct (String.eqb r "function") eqn:Ef.
  { destruct c as [s|items]; cbn [role content] in H2;
      rewrite Es, Eu, Ea, Ef in H2; cbn [content role concat_content] in H, H2;
      rewrite Hf, Hn in H2;
      destruct (USE_USER_ROLE_FUNCTION_CALL_RESULT f);
      injection H as <-; injection H2 as <-; cbn; auto. }
  cbn [role content] in H2. rewrite Es, Eu, Ea, Ef in H2.
  injection H as <-; injection H2 as <-. auto.
Qed.

Lemma format_loop_on_effect j f (messages : list nat) :
  forall st st2,
    (forall a, In a messages ->
       exists m, heap st !! a = Some m /\ typed_content m = true /\
                 heap st2 !! a = Some (in_place_effect j f m)) ->
    formatted_messages st2 = formatted_messages st ->
    last_role st2 = last_role st ->
    no_user_prompt_start st2 = no_user_prompt_start st ->
    exists st' st2',
      format_loop j f messages st = inr st' /\
      format_loop j f messages st2 = inr st2' /\
      formatted_messages st2' = formatted_messages st' /\
      last_role st2' = last_role st'.
Proof.
  induction messages as [|a rest IH]; intros st st2 Hall Hf Hl Hn.
  - exists st, st2. auto.
  - destruct (Hall a (or_introl eq_refl)) as (m & Hm & Ht & Hm2).
    destruct (format_step_typed j f st a m Hm Ht) as (st1 & E1 & Hh1).
    destruct (format_step_typed j f st2 a _ Hm2 (in_place_effect_typed j f m Ht))
      as (st21 & E2 & Hh2).
    rewrite in_place_effect_idempotent in Hh2.
    destruct (format_step_on_effect j f st st2 a m st1 st21 Hm Ht Hm2 Hf Hl Hn E1 E2)
      as (Hf1 & Hl1 & Hn1).
    destruct (IH st1 st21) as (st' & st2' & L1 & L2 & Hf' & Hl'); try assumption.
    { intros b Hb. destruct (Hall b (or_intror Hb)) as (mb & Hmb & Htb & Hmb2).
      rewrite Hh1, Hh2. destruct (decide (a = b)) as [->|Hne].
      - exists (in_place_effect j f m).
        rewrite !list_lookup_insert_eq by (eapply lookup_lt_Some; eassumption).
        split; [reflexivity|]. split; [now apply in_place_effect_typed|].
        now rewrite in_place_effect_idempotent.
      - exists mb. now rewrite !list_lookup_insert_ne. }
    exists st', st2'. cbn [format_loop]. rewrite E1, E2. auto.
Qed.

(** X3: formatting the same messages a second time changes nothing more and
    returns the same: the first call has put every entry in the form the
    second one reads. *)
Theorem X3_format_messages_twice :
  forall (json_dumps : JsonDumps) (self : MessagesFormatter) (h h' : Heap)
         (messages : list nat) (out : string * string),
    forallb (typed_reference h) messages = true ->
    format_messages json_dumps self h messages = (h', inr out) ->
    format_messages json_dumps self h' messages = (h', inr out).
Proof.
  intros j f h h' messages out Hall H.
  destruct (format_loop_typed j f messages (mkLoop (PRE_PROMPT f) "assistant" false h) Hall)
    as (st1 & L1 & Hlook).
  cbn [heap] in Hlook.
  unfold format_messages in H. rewrite L1 in H. injection H as <- <-.
  assert (Href : forall a, In a messages ->
            exists m, h !! a = Some m /\ typed_content m = true /\
                      heap st1 !! a = Some (in_place_effect j f m)).
  { intros a Ha. rewrite forallb_forall in Hall. specialize (Hall a Ha).
    unfold typed_reference in Hall. destruct (h !! a) as [m|] eqn:Hm; [|discriminate Hall].
    exists m. split; [reflexivity|]. split; [exact Hall|].
    rewrite Hlook, Hm. rewrite bool_decide_eq_true_2 by now apply list_elem_of_In.
    reflexivity. }
  destruct (format_loop_on_effect j f messages
              (mkLoop (PRE_PROMPT f) "assistant" false h)
              (mkLoop (PRE_PROMPT f) "assistant" false (heap st1)))
    as (st' & st2' & L1' & L2 & Hf & Hl); try reflexivity; [exact Href|].
  rewrite L1 in L1'. injection L1' as <-.
  destruct (format_loop_typed j f messages
              (mkLoop (PRE_PROMPT f) "assistant" false (heap st1)))
    as (st2'' & L2' & Hlook2).
  { apply forallb_forall. intros a Ha. destruct (Href a Ha) as (m & _ & Ht & Hm1).
    unfold typed_reference. cbn [heap]. rewrite Hm1. now apply in_place_effect_typed. }
  rewrite L2 in L2'. injection L2' as <-. cbn [heap] in Hlook2.
  assert (Hheap : heap st2' = heap st1).
  { apply list_eq. intros a. rewrite Hlook2. case_bool_decide as Ha; [|reflexivity].
    apply list_elem_of_In in Ha. destruct (Href a Ha) as (m & _ & _ & Hm1).
    rewrite Hm1. cbn. now rewrite in_place_effect_idempotent. }
  unfold format_messages. rewrite L2, Hheap. do 2 f_equal.
  unfold format_return. now rewrite Hf, Hl.
Qed.

Lemma X3_witness :
  format_messages shape_dumps custom_chat_ml_formatter example_heap_formatted
    example_messages
  = (example_heap_formatted, inr example_output).
Proof.
  apply (X3_format_messages_twice shape_dumps custom_chat_ml_formatter example_heap
           example_heap_formatted example_messages example_output).
  - reflexivity.
  - vm_compute. reflexivity.
Defined.

(** The loop on a list in two parts, and an entry it cannot handle. *)
Lemma format_loop_app j f (l1 l2 : list nat) :
  forall st,
    format_loop j f (l1 ++ l2) st
    = match format_loop j f l1 st with
      | inr st' => format_loop j f l2 st'
      | inl e => inl e
      end.
Proof.
  induction l1 as [|a l1 IH]; intros st; [reflexivity|].
  cbn [app format_loop]. destruct (format_step j f st a); [reflexivity | apply IH].
Qed.

Lemma format_step_untyped j f st a m :
  heap st !! a = Some m ->
  typed_content m = false ->
  exists e, format_step j f st a = inl e.
Proof.
  intros Hm Ht. unfold format_step. rewrite Hm. unfold typed_content in Ht.
  destruct (content m) as [s|items]; [discriminate Ht|].
  apply negb_false_iff in Ht.
  destruct (String.eqb (role m) "system"); [cbn; eauto|].
  destruct (String.eqb (role m) "user");
    [destruct (no_user_prompt_start st); cbn; eauto|].
  destruct (String.eqb (role m) "assistant"); [eauto | discriminate Ht].
Qed.

(** X7: an exception keeps what was done before it.  When the entries
    before the first one [format_messages] cannot handle are all well typed,
    the call raises and leaves the heap exactly as a call on those entries
    alone leaves it: they are changed in place, the later ones are not
    visited. *)
Theorem X7_exception_keeps_earlier_changes :
  forall (json_dumps : JsonDumps) (self : MessagesFormatter) (h : Heap)
         (before after : list nat) (addr : nat) (m : Message),
    forallb (typed_reference h) before = true ->
    h !! addr = Some m ->
    typed_content m = false ->
    exists (h' : Heap) (out : string * string) (e : PyExn),
      format_messages json_dumps self h before = (h', inr out) /\
      format_messages json_dumps self h (before ++ addr :: after) = (h', inl e).
Proof.
  intros j f h before after addr m Hall Hm Ht.
  destruct (format_loop_typed j f before (mkLoop (PRE_PROMPT f) "assistant" false h) Hall)
    as (st1 & L1 & Hlook).
  cbn [heap] in Hlook.
  assert (Hnot : ~ addr ∈ before).
  { intros Hin. apply list_elem_of_In in Hin.
    rewrite forallb_forall in Hall. specialize (Hall addr Hin).
    unfold typed_reference in Hall. rewrite Hm in Hall. congruence. }
  assert (Hm1 : heap st1 !! addr = Some m).
  { rewrite Hlook. now rewrite bool_decide_eq_false_2. }
  destruct (format_step_untyped j f st1 addr m Hm1 Ht) as (e & E).
  exists (heap st1), (format_return f st1), e. unfold format_messages.
  rewrite format_loop_app, L1. cbn [format_loop]. rewrite E. split; reflexivity.
Qed.

Lemma X7_witness :
  exists (h' : Heap) (out : string * string) (e : PyExn),
    format_messages shape_dumps bos_formatter broken_heap [0] = (h', inr out) /\
    format_messages shape_dumps bos_formatter broken_heap ([0] ++ 1 :: [2]) = (h', inl e).
Proof.
  apply (X7_exception_keeps_earlier_changes shape_dumps bos_formatter broken_heap
           [0] [2] 1 (mkMessage "user" (CList [JNull]))); reflexivity.
Defined.

(** ** The agent: what a turn leaves behind *)

(** X8: whatever the provider returns and however the turn ends, the event
    log after [get_response] is the log before it, then the [UserMessage]
    event of the inbound message, then what the turn added; the trace is the
    old one with something appended.  No event is removed, changed or
    reordered. *)
Theorem X8_turn_only_appends :
  forall (w : Collaborators) (fuel : nat) (message : string) (s : Agent),
    exists ev tr,
      event_memory (state_of (get_response w fuel message s))
      = event_memory s ++ mkEvent UserMessage message :: ev /\
      trace (state_of (get_response w fuel message s)) = trace s ++ tr.
Proof.
  intros w fuel message s. rewrite get_response_unfold.
  set (q := session_events (turn_start message s)).
  assert (G : grows (result <- generation_round w q ;;
                     heartbeat_loop w fuel q result ;; ret tt)).
  { pose proof (grows_heartbeat_loop w q fuel) as Hloop. grows_step. }
  destruct (G (turn_start message s)) as [[ev Hev] [tr Htr]].
  exists ev, tr. split.
  - rewrite Hev. cbn. now rewrite <- app_assoc.
  - exact Htr.
Qed.

(** ** One round and one run of message mode, exactly *)

Lemma generation_round_unfold (w : Collaborators) (q : list Event) (s : Agent) :
  generation_round w q s
  = let out := llm w (generation_count (trace s)) (round_request w q s) in
    let s1 := log_effect (Generate (round_request w q s))
                (set_last_response (raw out) s) in
    match parsed out with
    | None =>
        Ret (RText (raw out))
          (set_event_memory (event_memory s1 ++ [mkEvent AgentMessage (raw out)]) s1)
    | Some c =>
        match run_tool w c (log_effect (Dispatch c) s1) with
        | Ret v s2 =>
            Ret (RCall {| function := tool_name (call_function c);
                          return_value := v;
                          request_heartbeat := dispatched_heartbeat c |})
              (set_event_memory
                 (event_memory s2 ++ [mkEvent AgentMessage (last_response s2)]) s2)
        | Raise e s2 => Raise e s2
        | OutOfFuel s2 => OutOfFuel s2
        end
    end.
Proof.
  unfold generation_round, get_chat_response, generate, generate_prompt,
    handle_function_call, add_event_to_queue, bind, gets, modify, ret.
  fold (round_request w q s). cbv zeta.
  destruct (parsed (llm w (generation_count (trace s)) (round_request w q s)));
    [|reflexivity].
  now destruct (run_tool w t _).
Qed.

Lemma activate_message_mode_run_spec (w : Collaborators) (s : Agent) :
  exists req prose s',
    activate_message_mode_run w s = Ret "Message mode activated." s' /\
    trace s' = trace s ++ [ Generate req;
                            if send_message_to_user_callback s
                            then Callback prose else Print prose ] /\
    req_function_tool_registry req = false /\
    req_system_prompt req = current_prompt w s /\
    USE_FUNCTION_CALL_END (req_formatter req) = false /\
    prose = raw (llm w (generation_count (trace s)) req) /\
    event_memory s'
    = event_memory s ++ [ mkEvent AgentMessage (last_response s);
                          mkEvent FunctionMessage "Message mode activated." ] /\
    last_response s' = prose /\
    USE_FUNCTION_CALL_END (messages_formatter s') = false /\
    session_events s' = session_events s /\
    core_memory s' = core_memory s /\
    retrieval_memory s' = retrieval_memory s.
Proof.
  unfold activate_message_mode_run, get_chat_response_text, generate, generate_prompt,
    build_event_memory_context, session_query_all, send_message_to_user,
    add_event_to_queue, bind, gets, modify, ret.
  cbn -[generation_count].
  destruct (send_message_to_user_callback s); cbn -[generation_count].
  all: eexists _, _, _; split; [reflexivity|].
  all: cbn -[generation_count]; rewrite <- ?app_assoc.
  all: repeat split.
Qed.

(** A dispatched call always returns a value; the only generation it can
    make is the registry-free one of message mode. *)
Lemma run_tool_returns (w : Collaborators) (c : ToolCall) (s : Agent) :
  exists v s' tr,
    run_tool w c s = Ret v s' /\
    trace s' = trace s ++ tr /\
    forall req, In (Generate req) tr -> req_function_tool_registry req = false.
Proof.
  destruct (call_function c) eqn:Ef.
  1: { unfold run_tool. rewrite Ef.
       destruct (activate_message_mode_run_spec w s)
         as (req & prose & s' & E & Ht & Hreg & _).
       exists "Message mode activated.", s', [ Generate req;
                    if send_message_to_user_callback s
                    then Callback prose else Print prose ].
       split; [exact E|]. split; [exact Ht|].
       intros req0 [H|[H|[]]]; [congruence|].
       destruct (send_message_to_user_callback s); discriminate H. }
  all: destruct (run_tool_memory w c s ltac:(congruence)) as (v & rows & cm & rm & E);
    exists v, (set_tiers rows cm rm s), []; rewrite E, app_nil_r;
    (split; [reflexivity|]); (split; [reflexivity|]); intros req0 [].
Qed.

(** A round always returns; its first effect is the generation of its
    request, and no later one is a generation of the controller. *)
Lemma generation_round_shape (w : Collaborators) (q : list Event) (s : Agent) :
  exists result s' rest,
    generation_round w q s = Ret result s' /\
    trace s' = trace s ++ Generate (round_request w q s) :: rest /\
    forall req, In (Generate req) rest -> req_function_tool_registry req = false.
Proof.
  rewrite generation_round_unfold. cbv zeta.
  destruct (parsed (llm w (generation_count (trace s)) (round_request w q s))) as [c|].
  - match goal with
    | |- context [run_tool w c ?s0] =>
        destruct (run_tool_returns w c s0) as (v & s2 & tr & E & Ht & Hreg)
    end.
    rewrite E. eexists _, _, (Dispatch c :: tr). split; [reflexivity|].
    cbn [trace set_event_memory]. rewrite Ht. cbn.
    rewrite <- !app_assoc. split; [reflexivity|].
    intros req [H|H]; [discriminate H | now apply Hreg].
  - eexists _, _, []. split; [reflexivity|]. split; [reflexivity|]. intros req [].
Qed.

(** ** The prompt before every generation *)




(** The state in which a heartbeat re-invocation renders its prompt: the
    result recorded, the window rebuilt, the tiers as the result left them. *)
Lemma heartbeat_loop_continue_both (w : Collaborators) (q : list Event) (fuel : nat)
  (r : CallResult) (s : Agent) :
  request_heartbeat r = Some true ->
  exists s1,
    trace s1 = trace s /\
    session_events s1 = session_events s /\
    core_memory s1 = core_memory s /\
    retrieval_memory s1 = retrieval_memory s /\
    heartbeat_loop w (S fuel) q (RCall r) s
    = bind (generation_round w q) (heartbeat_loop w fuel q) s1 /\
    heartbeat_loop_fresh w (S fuel) (RCall r) s
    = bind (generation_round_fresh w) (heartbeat_loop_fresh w fuel) s1.
Proof.
  intros Hb. cbn [heartbeat_loop heartbeat_loop_fresh]. rewrite Hb.
  unfold build_event_memory_context, add_event_to_queue.
  destruct (negb (String.eqb (function r) "activate_message_mode"));
    eexists; (split; [|split; [|split; [|split; [|split]]]]).
  all: try (unfold bind at 1 2 3; cbn; reflexivity).
  all: reflexivity.
Qed.

Lemma state_of_bind_ret {A : Type} (m : M A) (s : Agent) :
  state_of ((m ;; ret tt) s) = state_of (m s).
Proof. unfold bind. now destruct (m s). Qed.




(** The prompts of one turn on an agent with a history, with tools that
    write: an archival insert, a core memory append, a search that commits a
    row, then message mode.  In [get_response] the archival count and the
    core memory's timestamp are those of the moment, the recall count of the
    rounds of the controller stays the one of line 196, and message mode,
    which queries the rows itself (line 91), shows the new one; the turn
    that queries before every generation shows the new count one round
    earlier. *)
Example prompts_of_a_heartbeat_chain :
  let w := filing [ call_output archival_memory_insert (Some true);
                    call_output core_memory_append (Some true);
                    call_output conversation_search (Some true);
                    call_output activate_message_mode None;
                    text_output "You enter the inn." ]
             (text_output "") in
  map req_system_prompt
    (requests (trace (state_of (get_response w 5 "Hello" seasoned_agent))))
  = [ mkPrompt "activate_message_mode: Activate the message mode." "then"
        "Players: Elysia." 1 2;
      mkPrompt "activate_message_mode: Activate the message mode." "then"
        "Players: Elysia." 2 2;
      mkPrompt "activate_message_mode: Activate the message mode." "now"
        "Players: Elysia.{}" 2 2;
      mkPrompt "activate_message_mode: Activate the message mode." "now"
        "Players: Elysia.{}" 2 2;
      mkPrompt "activate_message_mode: Activate the message mode." "now"
        "Players: Elysia.{}" 2 3 ] /\
  map (fun req => imb_count (req_system_prompt req))
    (requests (trace (state_of (get_response_fresh w 5 "Hello" seasoned_agent))))
  = [2; 2; 2; 3; 3].
Proof. vm_compute. split; reflexivity. Qed.

(** ** What every generation of a turn shows *)

Lemma heartbeat_loop_no_heartbeat (w : Collaborators) (q : list Event) (fuel : nat)
  (result : Result) (s : Agent) :
  requests_heartbeat result = false ->
  trace (state_of (heartbeat_loop w fuel q result s)) = trace s.
Proof.
  intros Hr. destruct result as [text|r]; [apply heartbeat_loop_text_trace|].
  destruct fuel as [|fuel]; [reflexivity|].
  destruct (heartbeat_loop_break w q fuel r s) as (s1 & Ht & E).
  { cbn in Hr. destruct (request_heartbeat r) as [[]|]; congruence. }
  now rewrite E.
Qed.

Lemma requests_heartbeat_true (result : Result) :
  requests_heartbeat result = true ->
  exists r, result = RCall r /\ request_heartbeat r = Some true.
Proof.
  destruct result as [text|r]; [discriminate|]. cbn.
  destruct (request_heartbeat r) as [[]|] eqn:E; try discriminate. eauto.
Qed.

(** The generations of the controller show the length of the list they are
    given, whatever the rows of the session are by then. *)
Lemma heartbeat_loop_counts (w : Collaborators) (q : list Event) :
  forall (fuel : nat) (result : Result) (s : Agent),
    exists tr,
      trace (state_of (heartbeat_loop w fuel q result s)) = trace s ++ tr /\
      forall req, In (Generate req) tr -> req_function_tool_registry req = true ->
        imb_count (req_system_prompt req) = length q.
Proof.
  induction fuel as [|fuel IH]; intros result s.
  { exists []. cbn. rewrite app_nil_r. split; [reflexivity|]. intros req []. }
  destruct (requests_heartbeat result) eqn:Hr.
  - destruct (requests_heartbeat_true result Hr) as (r & -> & Hb).
    destruct (heartbeat_loop_continue_both w q fuel r s Hb)
      as (s1 & Ht & _ & _ & _ & E & _).
    rewrite E. clear E.
    destruct (generation_round_shape w q s1) as (r1 & s2 & rest & E & Ht1 & Hreg).
    unfold bind. rewrite E.
    destruct (IH r1 s2) as (tr2 & Ht2 & Hcount).
    exists (Generate (round_request w q s1) :: rest ++ tr2).
    rewrite Ht2, Ht1, Ht, <- app_assoc. split; [reflexivity|].
    intros req [H|H] Htrue.
    + injection H as <-. reflexivity.
    + apply in_app_or in H as [H|H]; [|now apply Hcount].
      apply Hreg in H. congruence.
  - exists []. rewrite (heartbeat_loop_no_heartbeat w q (S fuel) result s Hr), app_nil_r.
    split; [reflexivity|]. intros req [].
Qed.

(** X10: all the generations the controller makes in a turn show one recall
    count, the one of the turn's first prompt: the list bound at line 196 is
    measured again at line 236, the rows are not queried again.  (The nested
    generation of message mode renders a count of its own, line 91.) *)
Theorem X10_recall_count_shown :
  forall (w : Collaborators) (fuel : nat) (message : string) (s : Agent),
    exists req1 rest,
      trace (state_of (get_response w fuel message s)) = trace s ++ Generate req1 :: rest /\
      req_function_tool_registry req1 = true /\
      forall req, In (Generate req) rest -> req_function_tool_registry req = true ->
        imb_count (req_system_prompt req) = imb_count (req_system_prompt req1).
Proof.
  intros w fuel message s. rewrite get_response_unfold.
  set (s0 := turn_start message s). set (q := session_events s0).
  destruct (generation_round_shape w q s0) as (r1 & s1 & rest & E & Ht1 & Hreg).
  unfold bind at 1. rewrite E, state_of_bind_ret.
  destruct (heartbeat_loop_counts w q fuel r1 s1) as (tr2 & Ht2 & Hcount).
  exists (round_request w q s0), (rest ++ tr2).
  rewrite Ht2, Ht1, <- app_assoc. split; [reflexivity|]. split; [reflexivity|].
  intros req H Htrue. apply in_app_or in H as [H|H].
  - apply Hreg in H. congruence.
  - now apply Hcount.
Qed.

(** ** The formatter's mode and the messages sent *)

Lemma dispatched_heartbeat_carried (c : ToolCall) :
  dispatched_heartbeat c = Some true -> call_request_heartbeat c = Some true.
Proof.
  unfold dispatched_heartbeat.
  destruct (add_outer_request_heartbeat_field (call_function c)); [trivial | discriminate].
Qed.

(** A round started with the formatter set to function calls, when message
    mode is never asked for a heartbeat: its generations fit their mode, and
    it either sends nothing and leaves the formatter so, or sends one message
    and returns a result that asks for no heartbeat. *)
Lemma generation_round_fits (w : Collaborators) (q : list Event) (s : Agent) :
  message_mode_asks_no_heartbeat w ->
  USE_FUNCTION_CALL_END (messages_formatter s) = true ->
  exists result s' tr,
    generation_round w q s = Ret result s' /\
    trace s' = trace s ++ tr /\
    forallb fits_its_mode tr = true /\
    ((sent_to_user tr = [] /\ USE_FUNCTION_CALL_END (messages_formatter s') = true) \/
     (requests_heartbeat result = false /\ exists prose, sent_to_user tr = [prose])).
Proof.
  intros Hno Hflag. rewrite generation_round_unfold. cbv zeta.
  set (req := round_request w q s).
  assert (Hreq : fits_its_mode (Generate req) = true).
  { subst req. cbn. now rewrite Hflag. }
  destruct (parsed (llm w (generation_count (trace s)) req)) as [c|] eqn:Hparsed.
  - destruct (call_function c) eqn:Ef.
    1: { (* message mode *)
      unfold run_tool. rewrite Ef.
      match goal with
      | |- context [activate_message_mode_run w ?s0] =>
          destruct (activate_message_mode_run_spec w s0)
            as (req' & prose & s2 & E & Ht & Hreg & _ & Hf & _)
      end.
      rewrite E. eexists _, _, _. split; [reflexivity|].
      cbn [trace set_event_memory]. rewrite Ht.
      cbn [trace log_effect set_last_response].
      split; [rewrite <- !app_assoc; reflexivity|]. cbn [app].
      split.
      * cbn [forallb]. rewrite Hreq. cbn [fits_its_mode]. rewrite Hf, Hreg.
        now destruct (send_message_to_user_callback _).
      * right. split.
        -- cbn. destruct (dispatched_heartbeat c) as [[]|] eqn:Ed; try reflexivity.
           apply dispatched_heartbeat_carried in Ed.
           now destruct (Hno _ _ _ Hparsed Ef).
        -- exists prose. now destruct (send_message_to_user_callback _). }
    all: match goal with
         | |- context [run_tool ?w0 ?c0 ?s0] =>
             destruct (run_tool_memory w0 c0 s0 ltac:(congruence))
               as (v & rows & cm & rm & E);
             rewrite E;
             eexists _, _, [Generate (round_request w0 q s); Dispatch c0]
         end;
      (split; [reflexivity|]); (split; [cbn; now rewrite <- app_assoc|]);
      (split; [cbn [forallb]; fold req; now rewrite Hreq|]);
      left; split; [reflexivity | exact Hflag].
  - eexists _, _, [Generate req]. split; [reflexivity|]. split; [reflexivity|].
    split; [cbn [forallb]; now rewrite Hreq|]. left. split; [reflexivity | exact Hflag].
Qed.

Lemma heartbeat_loop_continue_formatter (w : Collaborators) (q : list Event) (fuel : nat)
  (r : CallResult) (s : Agent) :
  request_heartbeat r = Some true ->
  exists s1,
    trace s1 = trace s /\
    messages_formatter s1 = messages_formatter s /\
    heartbeat_loop w (S fuel) q (RCall r) s
    = bind (generation_round w q) (heartbeat_loop w fuel q) s1.
Proof.
  intros Hb. cbn [heartbeat_loop]. rewrite Hb.
  unfold build_event_memory_context, add_event_to_queue.
  destruct (negb (String.eqb (function r) "activate_message_mode"));
    eexists; (split; [|split; [|unfold bind at 1 2 3; cbn; reflexivity]]);
    reflexivity.
Qed.

Lemma heartbeat_loop_fits (w : Collaborators) (q : list Event) :
  message_mode_asks_no_heartbeat w ->
  forall (fuel : nat) (result : Result) (s : Agent),
    USE_FUNCTION_CALL_END (messages_formatter s) = true \/
    requests_heartbeat result = false ->
    exists tr,
      trace (state_of (heartbeat_loop w fuel q result s)) = trace s ++ tr /\
      forallb fits_its_mode tr = true /\
      length (sent_to_user tr) <= 1.
Proof.
  intros Hno. induction fuel as [|fuel IH]; intros result s Hpre.
  { exists []. cbn. rewrite app_nil_r. auto. }
  destruct (requests_heartbeat result) eqn:Hr.
  - destruct Hpre as [Hflag|Hnone]; [|discriminate Hnone].
    destruct (requests_heartbeat_true result Hr) as (r & -> & Hb).
    destruct (heartbeat_loop_continue_formatter w q fuel r s Hb) as (s1 & Ht & Hf & E).
    rewrite E. clear E. rewrite <- Hf in Hflag.
    destruct (generation_round_fits w q s1 Hno Hflag)
      as (r1 & s2 & tr1 & E & Ht1 & Hfit1 & Hsent).
    unfold bind. rewrite E.
    destruct Hsent as [[Hnone Hflag2]|[Hnohb (prose & Hone)]].
    + destruct (IH r1 s2 (or_introl Hflag2)) as (tr2 & Ht2 & Hfit2 & Hlen).
      exists (tr1 ++ tr2). rewrite Ht2, Ht1, Ht, <- app_assoc. split; [reflexivity|].
      rewrite forallb_app, Hfit1, Hfit2, sent_to_user_app, Hnone. auto.
    + rewrite (heartbeat_loop_no_heartbeat w q fuel r1 s2 Hnohb).
      exists tr1. rewrite Ht1, Ht. split; [reflexivity|]. rewrite Hfit1, Hone. auto.
  - exists []. rewrite (heartbeat_loop_no_heartbeat w q (S fuel) result s Hr), app_nil_r.
    cbn. auto.
Qed.

(** When message mode is never asked for a heartbeat, every generation of a
    turn fits its mode and the turn hands at most one message to the user. *)
Lemma get_response_fits (w : Collaborators) (fuel : nat) (message : string) (s : Agent) :
  message_mode_asks_no_heartbeat w ->
  exists tr,
    trace (state_of (get_response w fuel message s)) = trace s ++ tr /\
    forallb fits_its_mode tr = true /\
    length (sent_to_user tr) <= 1.
Proof.
  intros Hno. rewrite get_response_unfold.
  set (s0 := turn_start message s). set (q := session_events s0).
  destruct (generation_round_fits w q s0 Hno eq_refl)
    as (r1 & s1 & tr1 & E & Ht1 & Hfit1 & Hsent).
  unfold bind at 1. rewrite E, state_of_bind_ret.
  change (trace s0) with (trace s) in Ht1.
  destruct Hsent as [[Hnone Hflag]|[Hnohb (prose & Hone)]].
  - destruct (heartbeat_loop_fits w q Hno fuel r1 s1 (or_introl Hflag))
      as (tr2 & Ht2 & Hfit2 & Hlen).
    exists (tr1 ++ tr2). rewrite Ht2, Ht1, <- app_assoc. split; [reflexivity|].
    rewrite forallb_app, Hfit1, Hfit2, sent_to_user_app, Hnone. auto.
  - rewrite (heartbeat_loop_no_heartbeat w q fuel r1 s1 Hnohb).
    exists tr1. rewrite Ht1. split; [reflexivity|]. rewrite Hfit1, Hone. auto.
Qed.

(** X9: when no call of [activate_message_mode] the provider writes carries
    a true outer heartbeat field, a turn hands at most one message to the
    user: only [activate_message_mode.run] sends, and its result then ends
    the loop. *)
Theorem X9_at_most_one_message_per_turn :
  forall (w : Collaborators) (fuel : nat) (message : string) (s : Agent),
    message_mode_asks_no_heartbeat w ->
    exists sent,
      sent_to_user (trace (state_of (get_response w fuel message s)))
      = sent_to_user (trace s) ++ sent /\
      length sent <= 1.
Proof.
  intros w fuel message s Hno.
  destruct (get_response_fits w fuel message s Hno) as (tr & Ht & _ & Hlen).
  exists (sent_to_user tr). now rewrite Ht, sent_to_user_app.
Qed.

Lemma X9_witness :
  exists sent,
    sent_to_user
      (trace (state_of (get_response
                          (scripted [ call_output core_memory_append (Some true);
                                      call_output activate_message_mode None ]
                             (text_output "You enter the inn."))
                          3 "Hello" fresh_agent)))
    = sent_to_user (trace fresh_agent) ++ sent /\
    length sent <= 1.
Proof.
  apply (X9_at_most_one_message_per_turn
           (scripted [ call_output core_memory_append (Some true);
                       call_output activate_message_mode None ]
              (text_output "You enter the inn."))
           3 "Hello" fresh_agent).
  intros i req c H Hf. destruct i as [|[|[|i]]]; simpl in H;
    try discriminate H; injection H as <-; simpl in *; discriminate.
Defined.

(** X11: when no call of [activate_message_mode] the provider writes carries
    a true outer heartbeat field, every generation the controller makes in a
    turn runs with the formatter's [USE_FUNCTION_CALL_END] set and the
    generation of message mode with it unset, whatever the flag was before
    the turn. *)
Theorem X11_formatter_mode_of_each_generation :
  forall (w : Collaborators) (fuel : nat) (message : string) (s : Agent),
    message_mode_asks_no_heartbeat w ->
    exists tr,
      trace (state_of (get_response w fuel message s)) = trace s ++ tr /\
      forall req, In (Generate req) tr ->
        USE_FUNCTION_CALL_END (req_formatter req) = req_function_tool_registry req.
Proof.
  intros w fuel message s Hno.
  destruct (get_response_fits w fuel message s Hno) as (tr & Ht & Hfit & _).
  exists tr. split; [exact Ht|]. intros req Hin.
  rewrite forallb_forall in Hfit. specialize (Hfit _ Hin). cbn in Hfit.
  now apply eqb_prop in Hfit.
Qed.

Lemma X11_witness :
  exists tr,
    trace (state_of (get_response
                       (scripted [ call_output core_memory_append (Some true);
                                   call_output activate_message_mode None ]
                          (text_output "You enter the inn."))
                       3 "Hello" fresh_agent))
    = trace fresh_agent ++ tr /\
    forall req, In (Generate req) tr ->
      USE_FUNCTION_CALL_END (req_formatter req) = req_function_tool_registry req.
Proof.
  apply (X11_formatter_mode_of_each_generation
           (scripted [ call_output core_memory_append (Some true);
                       call_output activate_message_mode None ]
              (text_output "You enter the inn."))
           3 "Hello" fresh_agent).
  intros i req c H Hf. destruct i as [|[|[|i]]]; simpl in H;
    try discriminate H; injection H as <-; simpl in *; discriminate.
Defined.

(** ** Plain-text results *)

(** X12: when the first generation of a turn returns the empty string,
    [result[0]] raises: [get_response] ends with an [IndexError], having
    recorded the inbound message and the empty output, and nothing else. *)
Theorem X12_empty_text_raises :
  forall (w : Collaborators) (fuel : nat) (message : string) (s : Agent),
    (forall req, llm w (generation_count (trace s)) req = text_output "") ->
    exists s',
      get_response w (S fuel) message s
      = Raise (IndexError "string index out of range") s' /\
      event_memory s'
      = event_memory s ++ [mkEvent UserMessage message; mkEvent AgentMessage ""] /\
      sent_to_user (trace s') = sent_to_user (trace s).
Proof.
  intros w fuel message s Hout. rewrite get_response_unfold.
  destruct (generation_round_text w (session_events (turn_start message s))
              (turn_start message s) "" Hout) as (s1 & req & E & Hev & Htr).
  unfold bind. rewrite E. cbn [heartbeat_loop]. unfold raise.
  exists s1. split; [reflexivity|]. split.
  - rewrite Hev. cbn. now rewrite <- app_assoc.
  - rewrite Htr, sent_to_user_app. cbn. now rewrite app_nil_r.
Qed.

Lemma X12_witness :
  exists s',
    get_response (scripted [] (text_output "")) 1 "Hello" fresh_agent
    = Raise (IndexError "string index out of range") s' /\
    event_memory s'
    = event_memory fresh_agent ++ [mkEvent UserMessage "Hello"; mkEvent AgentMessage ""] /\
    sent_to_user (trace s') = sent_to_user (trace fresh_agent).
Proof.
  apply (X12_empty_text_raises (scripted [] (text_output "")) 0 "Hello" fresh_agent).
  intros req. reflexivity.
Defined.

(** X13: when the first generation of a turn returns a non-empty text that
    is no structured call, the loop never ends: with fuel for [n] iterations
    the turn is still running and has appended, after the inbound message and
    the text, [2n] [FunctionMessage] events holding that text. *)
Theorem X13_text_result_loops_forever :
  forall (w : Collaborators) (message : string) (s : Agent) (text : string),
    text <> "" ->
    (forall req, llm w (generation_count (trace s)) req = text_output text) ->
    forall fuel, exists s',
      get_response w fuel message s = OutOfFuel s' /\
      event_memory s'
      = event_memory s
        ++ [mkEvent UserMessage message; mkEvent AgentMessage text]
        ++ repeat (mkEvent FunctionMessage text) (2 * fuel).
Proof.
  intros w message s text Hne Hout fuel. rewrite get_response_unfold.
  destruct (generation_round_text w (session_events (turn_start message s))
              (turn_start message s) text Hout) as (s1 & req & E & Hev & Htr).
  unfold bind. rewrite E.
  destruct text as [|c t]; [congruence|].
  rewrite heartbeat_loop_text. eexists. split; [reflexivity|].
  cbn [event_memory set_event_memory]. rewrite Hev. cbn [turn_start event_memory
    set_messages set_event_memory set_messages_formatter].
  now rewrite <- !app_assoc.
Qed.

Lemma X13_witness :
  exists s',
    get_response (scripted [text_output "Hi"] (text_output "")) 3 "Hello" fresh_agent
    = OutOfFuel s' /\
    event_memory s'
    = event_memory fresh_agent
      ++ [mkEvent UserMessage "Hello"; mkEvent AgentMessage "Hi"]
      ++ repeat (mkEvent FunctionMessage "Hi") (2 * 3).
Proof.
  apply (X13_text_result_loops_forever (scripted [text_output "Hi"] (text_output ""))
           "Hello" fresh_agent "Hi").
  - discriminate.
  - intros req. reflexivity.
Defined.

(** ** Turns of one structured call *)

(** X14: a turn whose first result is a call of [activate_message_mode]
    without a true outer heartbeat field.  It returns after two generations;
    the log gains, in this order, the inbound message, the raw output of the
    first generation, the tool's note and the prose, which is the raw output
    of the second, registry-free generation and the one message sent; the
    core and the archival memory are as before; and the formatter is left
    with [USE_FUNCTION_CALL_END] unset. *)
Theorem X14_message_mode_turn :
  forall (w : Collaborators) (fuel : nat) (message : string) (s : Agent) (c : ToolCall),
    (forall req, parsed (llm w (generation_count (trace s)) req) = Some c) ->
    call_function c = activate_message_mode ->
    call_request_heartbeat c <> Some true ->
    exists s' req' prose,
      get_response w (S fuel) message s = Ret tt s' /\
      prose = raw (llm w (generation_count (trace s) + 1) req') /\
      req_function_tool_registry req' = false /\
      event_memory s'
      = event_memory s
        ++ [ mkEvent UserMessage message;
             mkEvent AgentMessage
               (raw (llm w (generation_count (trace s))
                       (round_request w (session_events s) (turn_start message s))));
             mkEvent FunctionMessage "Message mode activated.";
             mkEvent AgentMessage prose ] /\
      sent_to_user (trace s') = sent_to_user (trace s) ++ [prose] /\
      generation_count (trace s') = generation_count (trace s) + 2 /\
      USE_FUNCTION_CALL_END (messages_formatter s') = false /\
      core_memory s' = core_memory s /\
      retrieval_memory s' = retrieval_memory s.
Proof.
  intros w fuel message s c Hc Hf Hno.
  assert (Hd : dispatched_heartbeat c <> Some true).
  { intros Ed. now apply dispatched_heartbeat_carried in Ed. }
  rewrite get_response_unfold. unfold bind at 1.
  rewrite generation_round_unfold. cbv zeta.
  change (trace (turn_start message s)) with (trace s).
  change (session_events (turn_start message s)) with (session_events s).
  rewrite Hc.
  unfold run_tool. rewrite Hf. cbn [tool_name].
  match goal with
  | |- context [activate_message_mode_run w ?s0] =>
      destruct (activate_message_mode_run_spec w s0)
        as (req' & prose & s2 & E & Ht & Hreg & _ & _ & Hp & Hev & Hlr & Hflag & _
            & Hcore & Hret)
  end.
  rewrite E.
  exists (set_event_memory
            (event_memory s2 ++ [mkEvent AgentMessage (last_response s2)]) s2),
    req', prose.
  split.
  { destruct (dispatched_heartbeat c) as [[]|]; [congruence | reflexivity | reflexivity]. }
  split.
  { rewrite Hp. cbn [trace log_effect set_last_response].
    rewrite !generation_count_app. cbn. now rewrite Nat.add_0_r. }
  split; [exact Hreg|].
  cbn [event_memory trace messages_formatter core_memory retrieval_memory
       set_event_memory].
  rewrite Hev, Hlr, Ht, Hflag, Hcore, Hret.
  cbn [event_memory trace core_memory retrieval_memory last_response
       log_effect set_last_response turn_start set_messages set_event_memory
       set_messages_formatter].
  rewrite <- !app_assoc. split; [reflexivity|].
  split.
  { rewrite !sent_to_user_app. cbn. now destruct (send_message_to_user_callback s). }
  split.
  { rewrite !generation_count_app.
    change (generation_count (?a :: ?b :: nil))
      with (generation_count [a] + generation_count [b]).
    cbn. destruct (send_message_to_user_callback s); cbn; lia. }
  repeat split.
Qed.

Lemma X14_witness :
  exists s' req' prose,
    get_response
      (scripted [call_output activate_message_mode None; text_output "You enter the inn."]
         (text_output "")) 1 "Hello" fresh_agent = Ret tt s' /\
    prose = raw (llm (scripted [call_output activate_message_mode None;
                                text_output "You enter the inn."] (text_output ""))
                   (generation_count (trace fresh_agent) + 1) req') /\
    req_function_tool_registry req' = false /\
    event_memory s'
    = event_memory fresh_agent
      ++ [ mkEvent UserMessage "Hello";
           mkEvent AgentMessage
             (raw (llm (scripted [call_output activate_message_mode None;
                                  text_output "You enter the inn."] (text_output ""))
                     (generation_count (trace fresh_agent))
                     (round_request
                        (scripted [call_output activate_message_mode None;
                                   text_output "You enter the inn."] (text_output ""))
                        (session_events fresh_agent) (turn_start "Hello" fresh_agent))));
           mkEvent FunctionMessage "Message mode activated.";
           mkEvent AgentMessage prose ] /\
    sent_to_user (trace s') = sent_to_user (trace fresh_agent) ++ [prose] /\
    generation_count (trace s') = generation_count (trace fresh_agent) + 2 /\
    USE_FUNCTION_CALL_END (messages_formatter s') = false /\
    core_memory s' = core_memory fresh_agent /\
    retrieval_memory s' = retrieval_memory fresh_agent.
Proof.
  apply (X14_message_mode_turn
           (scripted [call_output activate_message_mode None;
                      text_output "You enter the inn."] (text_output ""))
           0 "Hello" fresh_agent (mkCall activate_message_mode "{}" None)).
  - intros req. reflexivity.
  - reflexivity.
  - discriminate.
Defined.

(** X15: a turn whose first result is a call of a memory tool that asks for
    no heartbeat.  The handler runs once, on the queue that already holds the
    inbound message; the turn returns after this one generation with the
    rows, the core memory and the archival memory the handler gave; the log
    gains the inbound message, the raw output of the generation and the
    handler's return value as a [FunctionMessage] event; nothing is sent to
    the user. *)
Theorem X15_memory_tool_turn :
  forall (w : Collaborators) (fuel : nat) (message : string) (s : Agent) (c : ToolCall),
    (forall req, parsed (llm w (generation_count (trace s)) req) = Some c) ->
    call_function c <> activate_message_mode ->
    call_request_heartbeat c <> Some true ->
    exists s',
      get_response w (S fuel) message s = Ret tt s' /\
      let '(v, rows, cm, rm) :=
        run_memory_tool w (call_function c) (call_params c)
          (event_memory s ++ [mkEvent UserMessage message]) (session_events s)
          (core_memory s) (retrieval_memory s) in
      event_memory s'
      = event_memory s
        ++ [ mkEvent UserMessage message;
             mkEvent AgentMessage
               (raw (llm w (generation_count (trace s))
                       (round_request w (session_events s) (turn_start message s))));
             mkEvent FunctionMessage v ] /\
      session_events s' = rows /\
      core_memory s' = cm /\
      retrieval_memory s' = rm /\
      generation_count (trace s') = generation_count (trace s) + 1 /\
      sent_to_user (trace s') = sent_to_user (trace s).
Proof.
  intros w fuel message s c Hc Hf Hb.
  rewrite get_response_unfold. unfold bind at 1.
  rewrite generation_round_unfold. cbv zeta.
  change (trace (turn_start message s)) with (trace s).
  change (session_events (turn_start message s)) with (session_events s).
  rewrite Hc.
  assert (Hd : dispatched_heartbeat c = call_request_heartbeat c).
  { unfold dispatched_heartbeat. destruct (call_function c); [congruence| ..]; reflexivity. }
  assert (Hn : String.eqb (tool_name (call_function c)) "activate_message_mode" = false).
  { destruct (call_function c); [congruence| ..]; reflexivity. }
  assert (Hrun : forall s0,
             run_tool w c s0
             = let '(v, rows, cm, rm) :=
                 run_memory_tool w (call_function c) (call_params c) (event_memory s0)
                   (session_events s0) (core_memory s0) (retrieval_memory s0) in
               Ret v (set_tiers rows cm rm s0)).
  { intros s0. unfold run_tool. destruct (call_function c); [congruence| ..]; reflexivity. }
  rewrite Hrun, Hd.
  cbn [event_memory session_events core_memory retrieval_memory log_effect
       set_last_response turn_start set_messages set_event_memory set_messages_formatter].
  destruct (run_memory_tool w (call_function c) (call_params c)
              (event_memory s ++ [mkEvent UserMessage message]) (session_events s)
              (core_memory s) (retrieval_memory s)) as [[[v rows] cm] rm].
  cbn [heartbeat_loop]. unfold bind, add_event_to_queue, modify, ret.
  cbn [function return_value request_heartbeat]. rewrite Hn. cbn [negb].
  destruct (call_request_heartbeat c) as [[]|]; [congruence| |].
  all: eexists; split; [reflexivity|].
  all: cbn [event_memory session_events core_memory retrieval_memory trace last_response
            log_effect
            set_last_response set_tiers set_event_memory turn_start set_messages
            set_messages_formatter].
  all: rewrite <- ?app_assoc; split; [reflexivity|].
  all: split; [reflexivity|]; split; [reflexivity|]; split; [reflexivity|].
  all: rewrite <- ?app_assoc, ?generation_count_app, ?sent_to_user_app; cbn.
  all: split; [lia | now rewrite app_nil_r].
Qed.

Lemma X15_witness :
  exists s',
    get_response (filing [call_output archival_memory_insert (Some false)]
                    (text_output "")) 1 "Hello" seasoned_agent = Ret tt s' /\
    let '(v, rows, cm, rm) :=
      run_memory_tool (filing [call_output archival_memory_insert (Some false)]
                         (text_output ""))
        (call_function (mkCall archival_memory_insert "{}" (Some false)))
        (call_params (mkCall archival_memory_insert "{}" (Some false)))
        (event_memory seasoned_agent ++ [mkEvent UserMessage "Hello"])
        (session_events seasoned_agent)
        (core_memory seasoned_agent) (retrieval_memory seasoned_agent) in
    event_memory s'
    = event_memory seasoned_agent
      ++ [ mkEvent UserMessage "Hello";
           mkEvent AgentMessage
             (raw (llm (filing [call_output archival_memory_insert (Some false)]
                          (text_output ""))
                     (generation_count (trace seasoned_agent))
                     (round_request
                        (filing [call_output archival_memory_insert (Some false)]
                           (text_output ""))
                        (session_events seasoned_agent)
                        (turn_start "Hello" seasoned_agent))));
           mkEvent FunctionMessage v ] /\
    session_events s' = rows /\
    core_memory s' = cm /\
    retrieval_memory s' = rm /\
    generation_count (trace s') = generation_count (trace seasoned_agent) + 1 /\
    sent_to_user (trace s') = sent_to_user (trace seasoned_agent).
Proof.
  apply (X15_memory_tool_turn
           (filing [call_output archival_memory_insert (Some false)] (text_output ""))
           0 "Hello" seasoned_agent (mkCall archival_memory_insert "{}" (Some false))).
  - intros req. reflexivity.
  - discriminate.
  - discriminate.
Defined.
